(** * Course catalog service (app.py): a shallow embedding and its properties

    The application keeps a list of course records in one JSON file and
    serves five Flask routes over it.  The embedding follows app.py function
    by function:

    - a JSON document is the Python value [json.load] builds from it;
    - a Python exception is a value of [exn], and every function that can
      raise runs in the monad [M], which threads the [world] (backing file,
      log, flashed notices) and keeps the effects made before a raise;
    - [try: ... except Exception as e: ...] is [try_except].

    Tracing spans only record attributes, so they are left out; the argument
    of a [span.set_attribute] call is still evaluated where it can raise.
    Page templates are external: a rendered page is the template name
    together with the context handed to it.  Where a failing template
    matters, the views are taken over a template engine that can raise
    ([Templated]). *)

From Stdlib Require Import String Ascii List ZArith Bool Lia Floats.
Import ListNotations.
Local Open Scope string_scope.
Local Open Scope list_scope.
Set Warnings "-register-all".

(* ------------------------------------------------------------------ *)
(** * Python values and the exceptions the program can meet *)

(** What [json.load] returns: None, bool, int, float, str, list, dict.  A
    dict is kept as its items in insertion order; the keys of a dict are
    pairwise distinct, so the first binding of a key is its only one. *)
Inductive json : Type :=
| JNull
| JBool (b : bool)
| JInt (n : Z)
| JFloat (x : float)
| JStr (s : string)
| JArr (items : list json)
| JObj (members : list (string * json)).

Inductive exn : Type :=
| KeyError (key : string)
| TypeError
| AttributeError
| BuildError
| OSError
| JSONDecodeError.

(** The outcome of evaluating a Python expression. *)
Definition result (A : Type) : Type := (exn + A)%type.

Module Py.

Fixpoint lookup (key : string) (members : list (string * json)) : option json :=
  match members with
  | [] => None
  | (k, v) :: rest => if k =? key then Some v else lookup key rest
  end.

(** [v[key]] with a str key. *)
Definition getitem (v : json) (key : string) : result json :=
  match v with
  | JObj members =>
      match lookup key members with
      | Some x => inr x
      | None => inl (KeyError key)
      end
  | _ => inl TypeError
  end.

(** [v.get(key)]: only a dict has the method. *)
Definition get (v : json) (key : string) : result json :=
  match v with
  | JObj members =>
      match lookup key members with
      | Some x => inr x
      | None => inr JNull
      end
  | _ => inl AttributeError
  end.

(** [v == s] for a str [s]. *)
Definition eq_str (v : json) (s : string) : bool :=
  match v with
  | JStr t => t =? s
  | _ => false
  end.

(** [bool(v)]. *)
Definition truthy (v : json) : bool :=
  match v with
  | JNull => false
  | JBool b => b
  | JInt n => negb (n =? 0)%Z
  | JFloat x => negb (PrimFloat.eqb x 0%float)
  | JStr s => negb (s =? "")
  | JArr items => match items with [] => false | _ => true end
  | JObj members => match members with [] => false | _ => true end
  end.

Fixpoint chars (s : string) : list json :=
  match s with
  | EmptyString => []
  | String c rest => JStr (String c EmptyString) :: chars rest
  end.

(** The items a [for] loop visits. *)
Definition iter (v : json) : result (list json) :=
  match v with
  | JArr items => inr items
  | JObj members => inr (map (fun kv => JStr (fst kv)) members)
  | JStr s => inr (chars s)
  | _ => inl TypeError
  end.

(** [len(v)]. *)
Definition len (v : json) : result nat :=
  match v with
  | JArr items => inr (length items)
  | JObj members => inr (length members)
  | JStr s => inr (String.length s)
  | _ => inl TypeError
  end.

(** [v.append(x)]: only a list has the method; the list grows at its end. *)
Definition append (v x : json) : result json :=
  match v with
  | JArr items => inr (JArr (items ++ [x]))
  | _ => inl AttributeError
  end.

(** [str.isspace] on one character, for the code points below 256. *)
Definition isspace (c : ascii) : bool :=
  let n := nat_of_ascii c in
  (((9 <=? n) && (n <=? 13)) || ((28 <=? n) && (n <=? 32))
   || (n =? 133) || (n =? 160))%nat.

Fixpoint lstrip (s : string) : string :=
  match s with
  | EmptyString => EmptyString
  | String c rest => if isspace c then lstrip rest else s
  end.

Fixpoint rstrip (s : string) : string :=
  match s with
  | EmptyString => EmptyString
  | String c rest =>
      match rstrip rest with
      | EmptyString => if isspace c then EmptyString else String c EmptyString
      | kept => String c kept
      end
  end.

Definition strip (s : string) : string := rstrip (lstrip s).

(** [x.strip()] where [x] is a str or None. *)
Definition strip_opt (x : option string) : result string :=
  match x with
  | Some s => inr (strip s)
  | None => inl AttributeError
  end.

End Py.

(* ------------------------------------------------------------------ *)
(** * The world a request runs in *)

(** The backing file: missing, present but failing to open, read or parse
    (with the exception [open] or [json.load] raises), or holding a JSON
    document. *)
Inductive file_state : Type :=
| Absent
| Broken (e : exn)
| Holds (doc : json).

Inductive level : Type := INFO | WARNING | ERROR.

(** A field of a logged dict: a value, or [str(e)] of an exception. *)
Inductive logval : Type :=
| LVal (v : json)
| LExc (e : exn).

Definition log_entry : Type := (level * list (string * logval))%type.

Record world : Type := mkWorld {
  file : file_state;          (* course_catalog.json *)
  writable : bool;            (* does opening the file for writing succeed *)
  writes : nat;               (* completed overwrites of the file *)
  log : list log_entry;       (* what the logger received, oldest first *)
  flashes : list (string * string)  (* flashed (category, message), oldest first *)
}.

Definition add_log (e : log_entry) (w : world) : world :=
  mkWorld (file w) (writable w) (writes w) (log w ++ [e]) (flashes w).

Definition add_flash (f : string * string) (w : world) : world :=
  mkWorld (file w) (writable w) (writes w) (log w) (flashes w ++ [f]).

Definition overwrite (doc : json) (w : world) : world :=
  mkWorld (Holds doc) (writable w) (S (writes w)) (log w) (flashes w).

(** State and exceptions; the world reached before a raise is kept. *)
Definition M (A : Type) : Type := world -> result A * world.

Definition ret {A} (a : A) : M A := fun w => (inr a, w).

Definition raise {A} (e : exn) : M A := fun w => (inl e, w).

Definition bind {A B} (c : M A) (k : A -> M B) : M B :=
  fun w =>
    match c w with
    | (inr a, w1) => k a w1
    | (inl e, w1) => (inl e, w1)
    end.

Definition lift {A} (r : result A) : M A := fun w => (r, w).

Definition try_except {A} (body : M A) (handler : exn -> M A) : M A :=
  fun w =>
    match body w with
    | (inr a, w1) => (inr a, w1)
    | (inl e, w1) => handler e w1
    end.

Declare Scope py_scope.
Delimit Scope py_scope with py.
Notation "x <- c ;; k" := (bind c (fun x => k))
  (at level 61, c at next level, right associativity) : py_scope.
Notation "c ;; k" := (bind c (fun _ => k))
  (at level 61, right associativity) : py_scope.
Local Open Scope py_scope.

Definition msg (s : string) : string * logval := ("message", LVal (JStr s)).

Definition logger (l : level) (fields : list (string * logval)) : M unit :=
  fun w => (inr tt, add_log (l, fields) w).

Definition flash (message category : string) : M unit :=
  fun w => (inr tt, add_flash (category, message) w).

Definition COURSE_FILE : string := "course_catalog.json".

(** [os.path.exists(COURSE_FILE)]. *)
Definition path_exists : M bool :=
  fun w => (inr (match file w with Absent => false | _ => true end), w).

(** [with open(COURSE_FILE, 'r') as file: json.load(file)]. *)
Definition read_json : M json :=
  fun w =>
    match file w with
    | Holds doc => (inr doc, w)
    | Broken e => (inl e, w)
    | Absent => (inl OSError, w)
    end.

(** [with open(COURSE_FILE, 'w') as file: json.dump(courses, file, indent=4)]:
    the document replaces the file's contents when the file opens. *)
Definition write_json (doc : json) : M unit :=
  fun w => if writable w then (inr tt, overwrite doc w) else (inl OSError, w).

(* ------------------------------------------------------------------ *)
(** * Utility functions *)

Definition load_courses : M json :=
  try_except
    (present <- path_exists ;;
     if negb present then
       logger WARNING
         [msg ("Unable to find Course file " ++ COURSE_FILE
               ++ ". Returning empty list.")%string] ;;
       ret (JArr [])
     else read_json)
    (fun e =>
       logger ERROR [msg "There is an error loading the courses!"; ("error", LExc e)] ;;
       ret (JArr [])).

Definition save_courses_to_file (courses : json) : M unit :=
  try_except
    (write_json courses ;;
     logger INFO [msg "Courses have been saved to file successfully."])
    (fun e =>
       logger ERROR [msg "Error! Unable to save courses to file"; ("error", LExc e)]).

Definition save_courses (data : json) : M unit :=
  try_except
    (courses <- load_courses ;;
     courses' <- lift (Py.append courses data) ;;
     save_courses_to_file courses' ;;
     name <- lift (Py.get data "name") ;;
     code <- lift (Py.get data "code") ;;
     logger INFO [msg "Course added successfully.";
                  ("course_name", LVal name); ("course_code", LVal code)])
    (fun e => logger ERROR [msg "Error adding new course"; ("error", LExc e)]).

(* ------------------------------------------------------------------ *)
(** * Requests and responses *)

Record request : Type := mkRequest {
  method : string;
  form : list (string * string)   (* the submitted pairs, in order *)
}.

(** [request.form.get(key)]: the first value sent under the key, or None. *)
Fixpoint form_get (key : string) (pairs : list (string * string)) : option string :=
  match pairs with
  | [] => None
  | (k, v) :: rest => if k =? key then Some v else form_get key rest
  end.

Inductive response : Type :=
| Page (template : string) (context : list (string * json))
| Redirect (location : string).

Definition status_code (r : response) : Z :=
  match r with
  | Page _ _ => 200
  | Redirect _ => 302
  end.

Definition render_template (template : string) (context : list (string * json)) : response :=
  Page template context.

(** [url_for] over the routes that take no argument. *)
Definition url_for (endpoint : string) : result string :=
  if endpoint =? "index" then inr "/"
  else if endpoint =? "course_catalog" then inr "/catalog"
  else if endpoint =? "add_course" then inr "/add_course"
  else inl BuildError.

Definition redirect_to (endpoint : string) : M response :=
  location <- lift (url_for endpoint) ;;
  ret (Redirect location).

(** A view whose body sits in [try: ... except Exception as e:
    logger.error(...)]: after the handler the function ends without a return
    statement, so the view yields None. *)
Definition guarded (body : M response) (failure : string) : M (option response) :=
  try_except
    (r <- body ;; ret (Some r))
    (fun e => logger ERROR [msg failure; ("error", LExc e)] ;; ret None).

(* ------------------------------------------------------------------ *)
(** * Routes *)

Definition index : M (option response) :=
  logger INFO [msg "Homepage accessed."] ;;
  ret (Some (render_template "index.html" [])).

Definition course_catalog_body : M response :=
  courses <- load_courses ;;
  count <- lift (Py.len courses) ;;
  logger INFO [msg "Catalog page accessed.";
               ("course_count", LVal (JInt (Z.of_nat count)))] ;;
  ret (render_template "course_catalog.html" [("courses", courses)]).

Definition course_catalog : M (option response) :=
  guarded course_catalog_body "Error rendering catalog page".

(** [next((course for course in items if course['code'] == code), None)]:
    the generator is consumed up to its first match. *)
Fixpoint next_match (items : list json) (code : string) : result json :=
  match items with
  | [] => inr JNull
  | course :: rest =>
      match Py.getitem course "code" with
      | inl e => inl e
      | inr c => if Py.eq_str c code then inr course else next_match rest code
      end
  end.

Definition not_found_notice (code : string) : string :=
  ("No course found with code '" ++ code ++ "'.")%string.

Definition course_details_body (code : string) : M response :=
  courses <- load_courses ;;
  items <- lift (Py.iter courses) ;;
  course <- lift (next_match items code) ;;
  if negb (Py.truthy course) then
    logger ERROR [msg ("Course not found: " ++ code)%string; ("error", LVal (JBool true))] ;;
    flash (not_found_notice code) "error" ;;
    redirect_to "course_catalog"
  else
    name <- lift (Py.get course "name") ;;
    ccode <- lift (Py.get course "code") ;;
    logger INFO [msg "Course details rendered.";
                 ("course_name", LVal name); ("course_code", LVal ccode)] ;;
    ret (render_template "course_details.html" [("course", course)]).

Definition course_details (code : string) : M (option response) :=
  guarded (course_details_body code) "Error displaying course details".

Definition add_course_body (req : request) : M response :=
  if method req =? "POST" then
    course_name <- lift (Py.strip_opt (form_get "name" (form req))) ;;
    course_code <- lift (Py.strip_opt (form_get "code" (form req))) ;;
    course_instructor <- lift (Py.strip_opt (form_get "instructor" (form req))) ;;
    course_semester <- lift (Py.strip_opt (form_get "semester" (form req))) ;;
    if (course_name =? "") || (course_code =? "") || (course_instructor =? "") then
      flash "Fields marked with * are the required fields." "error" ;;
      logger ERROR [msg "Failed to add course. Missing required fields.";
                    ("error", LVal (JBool true))] ;;
      ret (render_template "add_course.html" [])
    else
      let new_course :=
        JObj [("name", JStr course_name); ("code", JStr course_code);
              ("instructor", JStr course_instructor);
              ("semester", JStr course_semester)] in
      save_courses new_course ;;
      flash "Course added successfully!" "success" ;;
      logger INFO [msg "New course added.";
                   ("course_name", LVal (JStr course_name));
                   ("course_code", LVal (JStr course_code))] ;;
      redirect_to "course_catalog"
  else
    logger INFO [msg "Add course form displayed."] ;;
    ret (render_template "add_course.html" []).

Definition add_course (req : request) : M (option response) :=
  guarded (add_course_body req) "Error in add_course_page route".

(** [[course for course in items if course['code'] != code]]: the
    comprehension visits every item, in order. *)
Fixpoint keep_others (items : list json) (code : string) : result (list json) :=
  match items with
  | [] => inr []
  | course :: rest =>
      match Py.getitem course "code" with
      | inl e => inl e
      | inr c =>
          match keep_others rest code with
          | inl e => inl e
          | inr kept => inr (if negb (Py.eq_str c code) then course :: kept else kept)
          end
      end
  end.

Definition delete_course_body (code : string) : M response :=
  courses <- load_courses ;;
  items <- lift (Py.iter courses) ;;
  updated_courses <- lift (keep_others items code) ;;
  before <- lift (Py.len courses) ;;
  (if (before =? length updated_courses)%nat then
     logger ERROR [msg ("Course not found for deletion: " ++ code)%string] ;;
     flash (not_found_notice code) "error"
   else
     save_courses_to_file (JArr updated_courses) ;;
     flash "Course deleted successfully!" "success" ;;
     logger INFO [msg "Course deleted successfully."; ("course_code", LVal (JStr code))]) ;;
  redirect_to "course_catalog".

Definition delete_course (code : string) : M (option response) :=
  guarded (delete_course_body code) "Error in delete_course_action route".

(* ------------------------------------------------------------------ *)
(** * Vocabulary of the properties *)

(** The catalog a request finds in the world is [L]: that is what
    [load_courses] returns there. *)
Definition loads (w : world) (L : list json) : Prop :=
  fst (load_courses w) = inr (JArr L).

(** The record answers [record['code']]. *)
Definition keyed (r : json) : Prop :=
  exists c, Py.getitem r "code" = inr c.

(** The record is a dict without the key 'code'. *)
Definition lacks_code (r : json) : bool :=
  match r with
  | JObj members =>
      match Py.lookup "code" members with
      | Some _ => false
      | None => true
      end
  | _ => false
  end.

(** The record's code equals [code]. *)
Definition code_is (code : string) (r : json) : bool :=
  match Py.getitem r "code" with
  | inr c => Py.eq_str c code
  | inl _ => false
  end.

Definition missing_file_entry : log_entry :=
  (WARNING,
   [msg "Unable to find Course file course_catalog.json. Returning empty list."]).

Definition load_error_entry (e : exn) : log_entry :=
  (ERROR, [msg "There is an error loading the courses!"; ("error", LExc e)]).

(** What a call of [load_courses] leaves behind. *)
Definition after_load (w : world) : world :=
  match file w with
  | Absent => add_log missing_file_entry w
  | Broken e => add_log (load_error_entry e) w
  | Holds _ => w
  end.

Definition stored (w : world) : json :=
  match file w with
  | Holds doc => doc
  | _ => JArr []
  end.

Definition saved_entry : log_entry :=
  (INFO, [msg "Courses have been saved to file successfully."]).

Definition deleted_entry (code : string) : log_entry :=
  (INFO, [msg "Course deleted successfully."; ("course_code", LVal (JStr code))]).

Definition not_deleted_entry (code : string) : log_entry :=
  (ERROR, [msg ("Course not found for deletion: " ++ code)%string]).

Definition missing_entry (code : string) : log_entry :=
  (ERROR, [msg ("Course not found: " ++ code)%string; ("error", LVal (JBool true))]).

(** The catalog of the specification's end-to-end example. *)
Definition algorithms : json :=
  JObj [("name", JStr "Algorithms"); ("code", JStr "CS301");
        ("instructor", JStr "Dr. A"); ("semester", JStr "Fall")].

Definition sample_world : world :=
  mkWorld (Holds (JArr [algorithms])) true 0 [] [].

Definition required_notice : string :=
  "Fields marked with * are the required fields.".

Definition missing_fields_entry : log_entry :=
  (ERROR, [msg "Failed to add course. Missing required fields.";
           ("error", LVal (JBool true))]).

(** What the [except] clause of a view logs for the exception [e]. *)
Definition failure_entry (failure : string) (e : exn) : log_entry :=
  (ERROR, [msg failure; ("error", LExc e)]).

(** The record [add_course] builds from the four stripped fields. *)
Definition course_of (name code instructor semester : string) : json :=
  JObj [("name", JStr name); ("code", JStr code);
        ("instructor", JStr instructor); ("semester", JStr semester)].

Definition added_entry (name code : string) : log_entry :=
  (INFO, [msg "New course added.";
          ("course_name", LVal (JStr name)); ("course_code", LVal (JStr code))]).

(** The five views, and the request each one serves. *)
Inductive view : Type :=
| Index
| CourseCatalog
| CourseDetails (code : string)
| AddCourse (req : request)
| DeleteCourse (code : string).

Definition dispatch (v : view) : M (option response) :=
  match v with
  | Index => index
  | CourseCatalog => course_catalog
  | CourseDetails code => course_details code
  | AddCourse req => add_course req
  | DeleteCourse code => delete_course code
  end.


(* ------------------------------------------------------------------ *)
(** * The views over a template engine that can fail *)

(** [render_template] reads the application's template folder, which is not
    part of app.py: here the engine is a parameter that gives the page or
    the exception it raises (a missing template raises TemplateNotFound, an
    OSError).  The views are those above with [render] in the place of
    [render_template]; [delete_course] renders nothing. *)
Module Templated.

Section Engine.

Variable render : string -> list (string * json) -> result response.

Definition index_body : M response :=
  logger INFO [msg "Homepage accessed."] ;;
  lift (render "index.html" []).

Definition index : M (option response) :=
  page <- index_body ;;
  ret (Some page).

Definition course_catalog_body : M response :=
  courses <- load_courses ;;
  count <- lift (Py.len courses) ;;
  logger INFO [msg "Catalog page accessed.";
               ("course_count", LVal (JInt (Z.of_nat count)))] ;;
  lift (render "course_catalog.html" [("courses", courses)]).

Definition course_catalog : M (option response) :=
  guarded course_catalog_body "Error rendering catalog page".

Definition course_details_body (code : string) : M response :=
  courses <- load_courses ;;
  items <- lift (Py.iter courses) ;;
  course <- lift (next_match items code) ;;
  if negb (Py.truthy course) then
    logger ERROR [msg ("Course not found: " ++ code)%string;
                  ("error", LVal (JBool true))] ;;
    flash (not_found_notice code) "error" ;;
    redirect_to "course_catalog"
  else
    name <- lift (Py.get course "name") ;;
    ccode <- lift (Py.get course "code") ;;
    logger INFO [msg "Course details rendered.";
                 ("course_name", LVal name); ("course_code", LVal ccode)] ;;
    lift (render "course_details.html" [("course", course)]).

Definition course_details (code : string) : M (option response) :=
  guarded (course_details_body code) "Error displaying course details".

Definition add_course_body (req : request) : M response :=
  if method req =? "POST" then
    course_name <- lift (Py.strip_opt (form_get "name" (form req))) ;;
    course_code <- lift (Py.strip_opt (form_get "code" (form req))) ;;
    course_instructor <- lift (Py.strip_opt (form_get "instructor" (form req))) ;;
    course_semester <- lift (Py.strip_opt (form_get "semester" (form req))) ;;
    if (course_name =? "") || (course_code =? "") || (course_instructor =? "") then
      flash "Fields marked with * are the required fields." "error" ;;
      logger ERROR [msg "Failed to add course. Missing required fields.";
                    ("error", LVal (JBool true))] ;;
      lift (render "add_course.html" [])
    else
      let new_course :=
        JObj [("name", JStr course_name); ("code", JStr course_code);
              ("instructor", JStr course_instructor);
              ("semester", JStr course_semester)] in
      save_courses new_course ;;
      flash "Course added successfully!" "success" ;;
      logger INFO [msg "New course added.";
                   ("course_name", LVal (JStr course_name));
                   ("course_code", LVal (JStr course_code))] ;;
      redirect_to "course_catalog"
  else
    logger INFO [msg "Add course form displayed."] ;;
    lift (render "add_course.html" []).

Definition add_course (req : request) : M (option response) :=
  guarded (add_course_body req) "Error in add_course_page route".


Definition dispatch (v : view) : M (option response) :=
  match v with
  | Index => index
  | CourseCatalog => course_catalog
  | CourseDetails code => course_details code
  | AddCourse req => add_course req
  | DeleteCourse code => delete_course code
  end.

End Engine.

(** The engine of the sections above: every template renders. *)
Definition renders_all (template : string) (context : list (string * json))
  : result response :=
  inr (render_template template context).


End Templated.

(* ------------------------------------------------------------------ *)
(** * More vocabulary: failed writes, the shape of stored records, runs *)

Definition save_error_entry : log_entry :=
  (ERROR, [msg "Error! Unable to save courses to file"; ("error", LExc OSError)]).

Definition catalog_entry (count : nat) : log_entry :=
  (INFO, [msg "Catalog page accessed.";
          ("course_count", LVal (JInt (Z.of_nat count)))]).

Definition form_entry : log_entry :=
  (INFO, [msg "Add course form displayed."]).

(** The text is made of whitespace only (or is empty). *)
Fixpoint blank (s : string) : bool :=
  match s with
  | EmptyString => true
  | String c rest => Py.isspace c && blank rest
  end.

(** [strip] leaves the text as it is: no whitespace around it. *)
Definition clean (s : string) : Prop := Py.strip s = s.

(** A record as [add_course] stores it: the four text fields, stripped, the
    three required ones not empty. *)
Definition course_record (r : json) : Prop :=
  exists n c i s,
    r = course_of n c i s /\
    n <> ""%string /\ c <> ""%string /\ i <> ""%string /\
    clean n /\ clean c /\ clean i /\ clean s.

(** The file is missing or holds a list of such records. *)
Definition sound_store (w : world) : Prop :=
  match file w with
  | Absent => True
  | Holds (JArr L) => Forall course_record L
  | _ => False
  end.

(** The world after a sequence of requests, served one after the other. *)
Definition serve (requests : list view) (w : world) : world :=
  fold_left (fun w1 v => snd (dispatch v w1)) requests w.

(* ------------------------------------------------------------------ *)
(** * The logging filter *)

Module RemoveColorCodesFilter.

Definition between (lo hi : nat) (c : ascii) : bool :=
  ((lo <=? nat_of_ascii c) && (nat_of_ascii c <=? hi))%nat.

(** The pieces of
    [ANSI_ESCAPE = \x1B(?:[@-Z\\-_]|\[[0-?]*[ -/]*[@-~])]. *)
Definition ESC : ascii := ascii_of_nat 27.
Definition is_esc (c : ascii) : bool := Ascii.eqb c ESC.
Definition is_bracket (c : ascii) : bool := Ascii.eqb c "["%char.
Definition fe_byte (c : ascii) : bool := between 64 90 c || between 92 95 c.
Definition parameter_byte (c : ascii) : bool := between 48 63 c.
Definition intermediate_byte (c : ascii) : bool := between 32 47 c.
Definition final_byte (c : ascii) : bool := between 64 126 c.

(** How many leading characters lie in a class: the greedy [class*]. *)
Fixpoint span (p : ascii -> bool) (s : string) : nat :=
  match s with
  | EmptyString => 0
  | String c rest => if p c then S (span p rest) else 0
  end.

Fixpoint drop (n : nat) (s : string) : string :=
  match n, s with
  | 0, _ => s
  | S m, String _ rest => drop m rest
  | S _, EmptyString => EmptyString
  end.

(** The length of the match of [ANSI_ESCAPE] that starts [s], if any.  The
    three classes of the second alternative are pairwise disjoint, so after
    the greedy stars no shorter choice can match either. *)
Definition match_length (s : string) : option nat :=
  match s with
  | String e (String c rest) =>
      if is_esc e then
        if fe_byte c then Some 2
        else if is_bracket c then
          let ps := span parameter_byte rest in
          let ims := span intermediate_byte (drop ps rest) in
          match drop ims (drop ps rest) with
          | String f _ => if final_byte f then Some (3 + ps + ims) else None
          | EmptyString => None
          end
        else None
      else None
  | _ => None
  end.

(** [ANSI_ESCAPE.sub('', s)]: scanning from the left, every match is left
    out and the scan goes on behind it; [skip] counts the characters of the
    current match still to leave out. *)
Fixpoint sub_from (skip : nat) (s : string) : string :=
  match s with
  | EmptyString => EmptyString
  | String c rest =>
      match skip with
      | S k => sub_from k rest
      | 0 =>
          match match_length s with
          | Some (S k) => sub_from k rest
          | _ => String c (sub_from 0 rest)
          end
      end
  end.

Definition sub (s : string) : string := sub_from 0 s.

(** [record.msg]: a str, or another object (here the logged dict). *)
Inductive message : Type :=
| Text (s : string)
| Object (fields : list (string * logval)).

Section Filter.

(** [str(record.msg)] of a logged dict. *)
Variable str : list (string * logval) -> string.

(** [filter(self, record)]: the verdict and the new [record.msg]. *)
Definition filter (record_msg : message) : bool * message :=
  let text :=
    match record_msg with
    | Text s => s
    | Object fields => str fields
    end in
  (true, Text (sub text)).

End Filter.

(** What the pattern says: ESC and one character of [[@-Z\\-_]], or ESC, an
    opening bracket, characters of [[0-?]], characters of [[ -/]] and one of
    [[@-~]]. *)
Fixpoint all_in (p : ascii -> bool) (s : string) : bool :=
  match s with
  | EmptyString => true
  | String c rest => p c && all_in p rest
  end.

Inductive escape_sequence : string -> Prop :=
| Fe_sequence (c : ascii) :
    fe_byte c = true ->
    escape_sequence (String ESC (String c EmptyString))
| Csi_sequence (params inter : string) (f : ascii) :
    all_in parameter_byte params = true ->
    all_in intermediate_byte inter = true ->
    final_byte f = true ->
    escape_sequence
      (String ESC (String "["%char (params ++ inter ++ String f EmptyString)))%string.

Definition no_esc (s : string) : bool := all_in (fun c => negb (is_esc c)) s.

Fixpoint take (n : nat) (s : string) : string :=
  match n, s with
  | S m, String c rest => String c (take m rest)
  | _, _ => EmptyString
  end.

End RemoveColorCodesFilter.

(* ------------------------------------------------------------------ *)
(** * The store *)

Ltac step :=
  unfold guarded, try_except, bind, ret, raise, lift, logger, flash,
    redirect_to, path_exists, read_json, write_json.

Lemma load_courses_run (w : world) :
  load_courses w = (inr (stored w), after_load w).
Proof.
  unfold load_courses, stored, after_load. step.
  destruct (file w) eqn:E; simpl; rewrite ?E; reflexivity.
Qed.

Lemma after_load_file w : file (after_load w) = file w.
Proof. unfold after_load. destruct (file w) eqn:E; simpl; congruence. Qed.

Lemma after_load_writable w : writable (after_load w) = writable w.
Proof. unfold after_load. destruct (file w); reflexivity. Qed.

Lemma after_load_writes w : writes (after_load w) = writes w.
Proof. unfold after_load. destruct (file w); reflexivity. Qed.

Lemma after_load_flashes w : flashes (after_load w) = flashes w.
Proof. unfold after_load. destruct (file w); reflexivity. Qed.

Lemma loads_stored w L : loads w L -> stored w = JArr L.
Proof.
  unfold loads. rewrite load_courses_run. simpl. congruence.
Qed.

Lemma loads_of_file w L :
  file w = Holds (JArr L) -> loads w L.
Proof.
  intros H. unfold loads. rewrite load_courses_run. unfold stored.
  rewrite H. reflexivity.
Qed.

Lemma save_courses_to_file_run (doc : json) (w : world) :
  writable w = true ->
  save_courses_to_file doc w = (inr tt, add_log saved_entry (overwrite doc w)).
Proof.
  intros H. unfold save_courses_to_file. step. rewrite H. reflexivity.
Qed.

(** The file a handler leaves after [save_courses data] in a world whose
    catalog is [L]. *)
Lemma save_courses_run (data : json) (w : world) (L : list json) :
  loads w L -> writable w = true ->
  exists w1,
    save_courses data w = (inr tt, w1) /\
    file w1 = Holds (JArr (L ++ [data])) /\
    writes w1 = S (writes w) /\
    writable w1 = true /\
    flashes w1 = flashes w.
Proof.
  intros HL HW. apply loads_stored in HL.
  unfold save_courses, try_except, bind. rewrite load_courses_run, HL.
  unfold lift at 1. simpl Py.append. cbv iota beta.
  rewrite save_courses_to_file_run by (rewrite after_load_writable; exact HW).
  unfold lift, logger, add_log, overwrite; simpl.
  rewrite after_load_writes, after_load_flashes.
  destruct (Py.get data "name") as [e | name];
    [| destruct (Py.get data "code") as [e | code]];
    (eexists; split; [reflexivity |]; simpl;
     rewrite ?after_load_writable; auto).
Qed.

(** C3 (as amended): [load_courses] never raises.  A missing file gives the
    empty list and a warning; a file that fails to open, read or parse gives
    the empty list and an error entry; any other file gives back the parsed
    document as it is, whatever its JSON type. *)
Theorem load_courses_never_raises (w : world) :
  load_courses w =
    match file w with
    | Absent => (inr (JArr []), add_log missing_file_entry w)
    | Broken e => (inr (JArr []), add_log (load_error_entry e) w)
    | Holds doc => (inr doc, w)
    end.
Proof.
  rewrite load_courses_run. unfold stored, after_load.
  destruct (file w); reflexivity.
Qed.

(** C3, the claim as written fails: a file holding the JSON number 42 loads
    as the int 42, which is no sequence. *)
Lemma load_courses_not_a_sequence :
  let w := mkWorld (Holds (JInt 42)) true 0 [] [] in
  fst (load_courses w) = inr (JInt 42) /\
  ~ (exists items, fst (load_courses w) = inr (JArr items)).
Proof.
  split; [reflexivity |].
  intros [items H]. discriminate H.
Qed.

(** C2: in a world whose catalog is [L] and whose file can be written,
    [save_courses r] returns normally and a following [load_courses] returns
    [L ++ [r]]: the old records first, unchanged and in order, [r] last. *)
Theorem append_then_load (w : world) (L : list json) (r : json) :
  loads w L -> writable w = true ->
  exists w1,
    save_courses r w = (inr tt, w1) /\
    loads w1 (L ++ [r]) /\
    last (L ++ [r]) JNull = r /\
    firstn (length L) (L ++ [r]) = L.
Proof.
  intros HL HW.
  destruct (save_courses_run r w L HL HW) as (w1 & Hrun & Hfile & _).
  exists w1. repeat split.
  - exact Hrun.
  - apply loads_of_file. exact Hfile.
  - apply last_last.
  - rewrite firstn_app, Nat.sub_diag, firstn_all. simpl. apply app_nil_r.
Qed.

(* ------------------------------------------------------------------ *)
(** * Walking the catalog *)

Lemma keyed_code_is (r : json) (code : string) :
  keyed r ->
  exists c, Py.getitem r "code" = inr c /\ code_is code r = Py.eq_str c code.
Proof.
  intros [c Hc]. exists c. split; [exact Hc |].
  unfold code_is. rewrite Hc. reflexivity.
Qed.

Lemma keep_others_keyed (L : list json) (code : string) :
  Forall keyed L ->
  keep_others L code = inr (filter (fun r => negb (code_is code r)) L).
Proof.
  induction 1 as [| r L Hr _ IH]; simpl; [reflexivity |].
  destruct (keyed_code_is r code Hr) as (c & Hget & Hcode).
  rewrite Hget, IH, Hcode. destruct (Py.eq_str c code); reflexivity.
Qed.

Lemma next_match_keyed (L : list json) (code : string) :
  Forall keyed L ->
  next_match L code =
    inr (match find (code_is code) L with Some r => r | None => JNull end).
Proof.
  induction 1 as [| r L Hr _ IH]; simpl; [reflexivity |].
  destruct (keyed_code_is r code Hr) as (c & Hget & Hcode).
  rewrite Hget, Hcode. destruct (Py.eq_str c code); [reflexivity | exact IH].
Qed.

(** A record whose code compares equal to a str is a dict with at least
    the key 'code': it is truthy and has [get]. *)
Lemma code_is_dict (r : json) (code : string) :
  code_is code r = true ->
  Py.truthy r = true /\
  exists members, r = JObj members /\ Py.lookup "code" members <> None.
Proof.
  unfold code_is, Py.getitem. destruct r; try discriminate.
  destruct members as [| kv rest]; simpl; [discriminate |].
  intros H. split; [reflexivity |]. eexists. split; [reflexivity |].
  simpl. destruct kv as [k v]. destruct (k =? "code")%string; [discriminate |].
  destruct (Py.lookup "code" rest); [discriminate | discriminate H].
Qed.

Lemma lacks_code_raises (r : json) :
  lacks_code r = true -> Py.getitem r "code" = inl (KeyError "code").
Proof.
  unfold lacks_code, Py.getitem. destruct r; try discriminate.
  destruct (Py.lookup "code" members); [discriminate | reflexivity].
Qed.

(** The comprehension of [delete_course] stops at the first record whose
    subscript raises, wherever it sits. *)
Lemma keep_others_raises (L : list json) (code : string) :
  (exists r e, In r L /\ Py.getitem r "code" = inl e) ->
  exists e, keep_others L code = inl e.
Proof.
  induction L as [| x L IH]; intros (r & e & Hin & Hget).
  - destruct Hin.
  - simpl. destruct (Py.getitem x "code") as [ex | c] eqn:Hx.
    + exists ex. reflexivity.
    + destruct Hin as [-> | Hin]; [congruence |].
      destruct IH as [e' He']; [exists r, e; auto |].
      rewrite He'. exists e'. reflexivity.
Qed.

(** The generator of [course_details] reaches a raising record only when no
    record before it matches. *)
Lemma next_match_raises (pre post : list json) (bad : json) (e : exn) (code : string) :
  Py.getitem bad "code" = inl e ->
  (forall r, In r pre -> code_is code r = false) ->
  exists e', next_match (pre ++ bad :: post) code = inl e'.
Proof.
  intros Hbad. induction pre as [| x pre IH]; intros Hpre; simpl.
  - rewrite Hbad. exists e. reflexivity.
  - assert (Hx : code_is code x = false) by (apply Hpre; left; reflexivity).
    unfold code_is in Hx.
    destruct (Py.getitem x "code") as [ex | c]; [exists ex; reflexivity |].
    rewrite Hx. apply IH. intros r Hr. apply Hpre. right. exact Hr.
Qed.

Lemma next_match_stops (pre post : list json) (hit : json) (code : string) :
  Forall keyed pre ->
  (forall r, In r pre -> code_is code r = false) ->
  code_is code hit = true ->
  next_match (pre ++ hit :: post) code = inr hit.
Proof.
  intros Hk Hpre Hhit. induction Hk as [| x pre Hx _ IH]; simpl.
  - unfold code_is in Hhit.
    destruct (Py.getitem hit "code"); [discriminate |]. rewrite Hhit. reflexivity.
  - destruct (keyed_code_is x code Hx) as (c & Hget & Hcode).
    rewrite Hget, <- Hcode, (Hpre x (or_introl eq_refl)).
    apply IH. intros r Hr. apply Hpre. right. exact Hr.
Qed.

Lemma filter_all_kept {A} (p : A -> bool) (L : list A) :
  (length L =? length (filter (fun x => negb (p x)) L))%nat = negb (existsb p L).
Proof.
  induction L as [| x L IH]; [reflexivity |].
  cbn [filter existsb]. destruct (p x); cbn [negb orb].
  - pose proof (filter_length_le (fun x => negb (p x)) L).
    apply Nat.eqb_neq. cbn [length]. lia.
  - exact IH.
Qed.

(* ------------------------------------------------------------------ *)
(** * The guard around a view *)

Lemma guarded_returns (body : M response) (failure : string) w r w1 :
  body w = (inr r, w1) -> guarded body failure w = (inr (Some r), w1).
Proof. intros H. unfold guarded. step. rewrite H. reflexivity. Qed.

Lemma guarded_raises (body : M response) (failure : string) w e w1 :
  body w = (inl e, w1) ->
  guarded body failure w =
    (inr None, add_log (failure_entry failure e) w1).
Proof. intros H. unfold guarded. step. rewrite H. reflexivity. Qed.

Lemma loads_same_file (w w' : world) (L : list json) :
  file w' = file w -> loads w L -> loads w' L.
Proof.
  unfold loads. rewrite !load_courses_run. unfold stored. simpl.
  intros ->. auto.
Qed.

(* ------------------------------------------------------------------ *)
(** * Deleting *)

Lemma delete_course_body_run (w : world) (L : list json) (code : string) :
  loads w L -> Forall keyed L -> writable w = true ->
  delete_course_body code w =
    (inr (Redirect "/catalog"),
     if existsb (code_is code) L then
       add_log (deleted_entry code)
         (add_flash ("success", "Course deleted successfully!")
            (add_log saved_entry
               (overwrite (JArr (filter (fun r => negb (code_is code r)) L))
                  (after_load w))))
     else
       add_flash ("error", not_found_notice code)
         (add_log (not_deleted_entry code) (after_load w))).
Proof.
  intros HL HK HW. apply loads_stored in HL.
  unfold delete_course_body, bind. rewrite load_courses_run, HL.
  unfold lift. cbn [Py.iter Py.len]. rewrite (keep_others_keyed L code HK).
  rewrite filter_all_kept.
  destruct (existsb (code_is code) L); cbn [negb].
  - rewrite save_courses_to_file_run by (rewrite after_load_writable; exact HW).
    reflexivity.
  - reflexivity.
Qed.

Lemma delete_course_body_raises (w : world) (L : list json) (code : string) :
  loads w L ->
  (exists r e, In r L /\ Py.getitem r "code" = inl e) ->
  exists e, delete_course_body code w = (inl e, after_load w).
Proof.
  intros HL HB. apply loads_stored in HL.
  destruct (keep_others_raises L code HB) as [e He]. exists e.
  unfold delete_course_body, bind. rewrite load_courses_run, HL.
  unfold lift. cbn [Py.iter]. rewrite He. reflexivity.
Qed.

(** C1: in a world whose catalog is [L], made of records that carry a code,
    and whose file can be written, [delete_course c] redirects to the list
    and works on [kept], the records of [L] whose code differs from [c], in
    their order in [L].  When some record matched, the file is overwritten
    once, with [kept], and the success notice is flashed; when none matched,
    the file is not written and the not-found notice is flashed.  The
    not-found notice is flashed exactly when no record of [L] has code [c]. *)
Theorem delete_course_removes_every_match (w : world) (L : list json) (c : string) :
  loads w L -> Forall keyed L -> writable w = true ->
  let kept := filter (fun r => negb (code_is c r)) L in
  let w' := snd (delete_course c w) in
  fst (delete_course c w) = inr (Some (Redirect "/catalog")) /\
  (if existsb (code_is c) L then
     file w' = Holds (JArr kept) /\ writes w' = S (writes w) /\ loads w' kept /\
     flashes w' = flashes w ++ [("success", "Course deleted successfully!")]
   else
     file w' = file w /\ writes w' = writes w /\ loads w' L /\
     flashes w' = flashes w ++ [("error", not_found_notice c)]) /\
  (flashes w' = flashes w ++ [("error", not_found_notice c)] <->
   forall r, In r L -> code_is c r = false).
Proof.
  intros HL HK HW kept w'.
  pose proof (delete_course_body_run w L c HL HK HW) as Hrun.
  apply guarded_returns with (failure := "Error in delete_course_action route") in Hrun.
  fold (delete_course c) in Hrun. subst w'. rewrite Hrun. cbn [fst snd].
  split; [reflexivity |].
  destruct (existsb (code_is c) L) eqn:Hex.
  - split.
    + cbn. rewrite after_load_writes, after_load_flashes.
      repeat split.
    + cbn. rewrite after_load_flashes. split.
      * intros H. apply app_inv_head in H. discriminate H.
      * intros Hno. apply existsb_exists in Hex. destruct Hex as (r & Hin & Hr).
        rewrite (Hno r Hin) in Hr. discriminate Hr.
  - split.
    + cbn. rewrite after_load_file, after_load_writes, after_load_flashes.
      repeat split. apply loads_same_file with (w := w); [| exact HL].
      cbn. apply after_load_file.
    + cbn. rewrite after_load_flashes. split; [| reflexivity].
      intros _ r Hin. destruct (code_is c r) eqn:Hr; [| reflexivity].
      assert (existsb (code_is c) L = true) by (apply existsb_exists; eauto).
      congruence.
Qed.

(** The witness of C1: deleting CS301 from the one-course catalog. *)
Lemma delete_course_removes_every_match_witness :
  loads sample_world [algorithms] /\
  Forall keyed [algorithms] /\
  writable sample_world = true /\
  fst (delete_course "CS301" sample_world) = inr (Some (Redirect "/catalog")).
Proof.
  assert (HL : loads sample_world [algorithms]) by reflexivity.
  assert (HK : Forall keyed [algorithms]).
  { repeat constructor. exists (JStr "CS301"). reflexivity. }
  assert (HW : writable sample_world = true) by reflexivity.
  refine (conj HL (conj HK (conj HW _))).
  exact (proj1 (delete_course_removes_every_match sample_world [algorithms]
                  "CS301" HL HK HW)).
Defined.

(* ------------------------------------------------------------------ *)
(** * Looking a course up *)

Lemma course_details_body_missing (w : world) (L : list json) (code : string) :
  loads w L -> next_match L code = inr JNull ->
  course_details_body code w =
    (inr (Redirect "/catalog"),
     add_flash ("error", not_found_notice code)
       (add_log (missing_entry code) (after_load w))).
Proof.
  intros HL HN. apply loads_stored in HL.
  unfold course_details_body, bind. rewrite load_courses_run, HL.
  unfold lift. cbn [Py.iter]. rewrite HN. reflexivity.
Qed.

Lemma course_details_body_found (w : world) (L : list json) (code : string) (r : json) :
  loads w L -> next_match L code = inr r -> code_is code r = true ->
  exists w1,
    course_details_body code w =
      (inr (Page "course_details.html" [("course", r)]), w1) /\
    file w1 = file w /\ writes w1 = writes w /\ flashes w1 = flashes w.
Proof.
  intros HL HN HC. apply loads_stored in HL.
  destruct (code_is_dict r code HC) as (HT & members & -> & _).
  unfold course_details_body, bind. rewrite load_courses_run, HL.
  unfold lift. cbn [Py.iter]. rewrite HN, HT. cbn [negb Py.get].
  destruct (Py.lookup "name" members), (Py.lookup "code" members);
    (eexists; split; [reflexivity |]; cbn;
     rewrite after_load_file, after_load_writes, after_load_flashes; auto).
Qed.

Lemma course_details_body_raises (w : world) (L : list json) (code : string) (e : exn) :
  loads w L -> next_match L code = inl e ->
  course_details_body code w = (inl e, after_load w).
Proof.
  intros HL HN. apply loads_stored in HL.
  unfold course_details_body, bind. rewrite load_courses_run, HL.
  unfold lift. cbn [Py.iter]. rewrite HN. reflexivity.
Qed.

(** C6: in a world whose catalog is [L], made of records that carry a code,
    [course_details c] never ends in its exception path.  When no record of
    [L] has code [c] it flashes the error notice
    "No course found with code '<c>'." and redirects to /catalog; otherwise it
    renders course_details.html with the first record of [L] whose code is
    [c] and flashes nothing.  The file is left as it was. *)
Theorem course_details_found_or_redirect (w : world) (L : list json) (c : string) :
  loads w L -> Forall keyed L ->
  let w' := snd (course_details c w) in
  file w' = file w /\ writes w' = writes w /\
  ((forall r, In r L -> code_is c r = false) <-> find (code_is c) L = None) /\
  match find (code_is c) L with
  | None =>
      fst (course_details c w) = inr (Some (Redirect "/catalog")) /\
      flashes w' =
        flashes w ++ [("error", ("No course found with code '" ++ c ++ "'.")%string)]
  | Some r =>
      fst (course_details c w) =
        inr (Some (Page "course_details.html" [("course", r)])) /\
      flashes w' = flashes w
  end.
Proof.
  intros HL HK w'.
  pose proof (next_match_keyed L c HK) as HN.
  assert (Hiff : (forall r, In r L -> code_is c r = false) <->
                 find (code_is c) L = None).
  { split.
    - intros Hno. destruct (find (code_is c) L) as [r |] eqn:Hf; [| reflexivity].
      apply find_some in Hf. destruct Hf as [Hin Hr].
      rewrite (Hno r Hin) in Hr. discriminate Hr.
    - intros Hf r Hin. exact (find_none _ _ Hf r Hin). }
  destruct (find (code_is c) L) as [r |] eqn:Hf.
  - destruct (find_some _ _ Hf) as [_ Hr].
    destruct (course_details_body_found w L c r HL HN Hr) as (w1 & Hrun & H1 & H2 & H3).
    apply guarded_returns with (failure := "Error displaying course details") in Hrun.
    fold (course_details c) in Hrun. subst w'. rewrite Hrun. cbn [fst snd]. auto.
  - pose proof (course_details_body_missing w L c HL HN) as Hrun.
    apply guarded_returns with (failure := "Error displaying course details") in Hrun.
    fold (course_details c) in Hrun. subst w'. rewrite Hrun. cbn.
    rewrite after_load_file, after_load_writes, after_load_flashes. auto.
Qed.

(** The witness of C6: the details of CS301 in the one-course catalog. *)
Lemma course_details_found_or_redirect_witness :
  loads sample_world [algorithms] /\
  Forall keyed [algorithms] /\
  fst (course_details "CS301" sample_world) =
    inr (Some (Page "course_details.html" [("course", algorithms)])).
Proof.
  assert (HL : loads sample_world [algorithms]) by reflexivity.
  assert (HK : Forall keyed [algorithms]).
  { repeat constructor. exists (JStr "CS301"). reflexivity. }
  refine (conj HL (conj HK _)).
  exact (proj1 (proj2 (proj2 (proj2
    (course_details_found_or_redirect sample_world [algorithms] "CS301" HL HK))))).
Defined.

(** The witness of C2: appending a second course to the one-course catalog. *)
Lemma append_then_load_witness :
  loads sample_world [algorithms] /\
  writable sample_world = true /\
  exists w1,
    save_courses (course_of "Logic" "CS302" "Dr. B" "") sample_world = (inr tt, w1) /\
    loads w1 ([algorithms] ++ [course_of "Logic" "CS302" "Dr. B" ""]) /\
    last ([algorithms] ++ [course_of "Logic" "CS302" "Dr. B" ""]) JNull =
      course_of "Logic" "CS302" "Dr. B" "" /\
    firstn (length [algorithms])
      ([algorithms] ++ [course_of "Logic" "CS302" "Dr. B" ""]) = [algorithms].
Proof.
  assert (HL : loads sample_world [algorithms]) by reflexivity.
  assert (HW : writable sample_world = true) by reflexivity.
  refine (conj HL (conj HW _)).
  exact (append_then_load sample_world [algorithms]
           (course_of "Logic" "CS302" "Dr. B" "") HL HW).
Defined.

(* ------------------------------------------------------------------ *)
(** * Malformed records in storage *)

(** C10 (as amended): let the catalog [L] hold a dict without the key
    'code'.  [delete_course] subscripts every record, so it always ends in
    its exception path: no response, nothing flashed, the file not written.
    [course_details] subscripts the records only up to its first match: it
    ends in its exception path, with no response and nothing flashed, when
    no record before the malformed one has the requested code; and when a
    record has the requested code and the records before it carry a code
    other than the requested one, that record is rendered whatever is stored
    behind it, malformed records included. *)
Theorem malformed_record_exception_path (w : world) (L : list json) (c : string) :
  loads w L ->
  (existsb lacks_code L = true ->
   (exists e, fst (delete_course_body c w) = inl e) /\
   fst (delete_course c w) = inr None /\
   file (snd (delete_course c w)) = file w /\
   writes (snd (delete_course c w)) = writes w /\
   flashes (snd (delete_course c w)) = flashes w) /\
  (forall pre bad post,
     L = pre ++ bad :: post -> lacks_code bad = true ->
     (forall r, In r pre -> code_is c r = false) ->
     (exists e, fst (course_details_body c w) = inl e) /\
     fst (course_details c w) = inr None /\
     file (snd (course_details c w)) = file w /\
     flashes (snd (course_details c w)) = flashes w) /\
  (forall pre hit post,
     L = pre ++ hit :: post -> Forall keyed pre ->
     (forall r, In r pre -> code_is c r = false) -> code_is c hit = true ->
     fst (course_details c w) =
       inr (Some (Page "course_details.html" [("course", hit)])) /\
     file (snd (course_details c w)) = file w /\
     flashes (snd (course_details c w)) = flashes w).
Proof.
  intros HL. split; [| split].
  - intros Hbad. apply existsb_exists in Hbad. destruct Hbad as (r & Hin & Hr).
    destruct (delete_course_body_raises w L c HL) as [e Hrun].
    { exists r, (KeyError "code"). split; [exact Hin |].
      apply lacks_code_raises. exact Hr. }
    split; [exists e; rewrite Hrun; reflexivity |].
    apply guarded_raises with (failure := "Error in delete_course_action route") in Hrun.
    fold (delete_course c) in Hrun. rewrite Hrun. cbn.
    rewrite after_load_file, after_load_writes, after_load_flashes. auto.
  - intros pre bad post -> Hbad Hpre.
    destruct (next_match_raises pre post bad _ c (lacks_code_raises bad Hbad) Hpre)
      as [e He].
    pose proof (course_details_body_raises w _ c e HL He) as Hrun.
    split; [exists e; rewrite Hrun; reflexivity |].
    apply guarded_raises with (failure := "Error displaying course details") in Hrun.
    fold (course_details c) in Hrun. rewrite Hrun. cbn.
    rewrite after_load_file, after_load_flashes. auto.
  - intros pre hit post -> Hkeyed Hpre Hhit.
    pose proof (next_match_stops pre post hit c Hkeyed Hpre Hhit) as HN.
    destruct (course_details_body_found w _ c hit HL HN Hhit)
      as (w1 & Hrun & Hfile & _ & Hflashes).
    apply guarded_returns with (failure := "Error displaying course details") in Hrun.
    fold (course_details c) in Hrun. rewrite Hrun. cbn [fst snd]. auto.
Qed.

(** The witness of C10: a catalog of one dict that has a name and no code,
    and the same dict stored behind the course CS301. *)
Lemma malformed_record_exception_path_witness :
  let bad := JObj [("name", JStr "Logic")] in
  let w := mkWorld (Holds (JArr [bad])) true 0 [] [] in
  let w2 := mkWorld (Holds (JArr [algorithms; bad])) true 0 [] [] in
  loads w [bad] /\
  fst (delete_course "CS301" w) = inr None /\
  fst (course_details "CS301" w) = inr None /\
  loads w2 [algorithms; bad] /\
  fst (course_details "CS301" w2) =
    inr (Some (Page "course_details.html" [("course", algorithms)])).
Proof.
  intros bad w w2.
  assert (HL : loads w [bad]) by reflexivity.
  assert (HL2 : loads w2 [algorithms; bad]) by reflexivity.
  pose proof (malformed_record_exception_path w _ "CS301" HL) as [HD [HC _]].
  pose proof (malformed_record_exception_path w2 _ "CS301" HL2) as [_ [_ HR]].
  refine (conj HL (conj _ (conj _ (conj HL2 _)))).
  - exact (proj1 (proj2 (HD eq_refl))).
  - refine (proj1 (proj2 (HC [] bad [] eq_refl eq_refl _))).
    intros r [].
  - refine (proj1 (HR [] algorithms [bad] eq_refl (Forall_nil _) _ eq_refl)).
    intros r [].
Defined.

(** C10, the claim as written fails: with a malformed record stored after
    the course CS301, the details page of CS301 is rendered. *)
Lemma course_details_before_malformed_record :
  let L := [algorithms; JObj [("name", JStr "Logic")]] in
  let w := mkWorld (Holds (JArr L)) true 0 [] [] in
  loads w L /\
  existsb lacks_code L = true /\
  fst (course_details "CS301" w) =
    inr (Some (Page "course_details.html" [("course", algorithms)])) /\
  fst (course_details "CS301" w) <> inr None.
Proof.
  cbv zeta. repeat split. discriminate.
Qed.

(* ------------------------------------------------------------------ *)
(** * Adding a course *)

(** Once the four fields are read, a POST goes on with their stripped
    values. *)
Lemma add_course_body_post (req : request) (n c i s : string) (w : world) :
  method req = "POST"%string ->
  form_get "name" (form req) = Some n ->
  form_get "code" (form req) = Some c ->
  form_get "instructor" (form req) = Some i ->
  form_get "semester" (form req) = Some s ->
  add_course_body req w =
    (if ((Py.strip n =? "") || (Py.strip c =? "") || (Py.strip i =? ""))%string then
       flash required_notice "error" ;;
       logger (fst missing_fields_entry) (snd missing_fields_entry) ;;
       ret (render_template "add_course.html" [])
     else
       save_courses (course_of (Py.strip n) (Py.strip c) (Py.strip i) (Py.strip s)) ;;
       flash "Course added successfully!" "success" ;;
       logger (fst (added_entry (Py.strip n) (Py.strip c)))
              (snd (added_entry (Py.strip n) (Py.strip c))) ;;
       redirect_to "course_catalog") w.
Proof.
  intros Hm Hn Hc Hi Hs. unfold add_course_body.
  rewrite Hm, Hn, Hc, Hi, Hs. reflexivity.
Qed.

Lemma required_field_empty (n c i : string) :
  n = ""%string \/ c = ""%string \/ i = ""%string <->
  ((n =? "") || (c =? "") || (i =? ""))%string = true.
Proof.
  rewrite !orb_true_iff, !String.eqb_eq. tauto.
Qed.

(** C4: a POST that carries the four fields, with name, code or instructor
    empty once stripped, gets the form page back (add_course.html with an
    empty context, status 200, no redirect); the required-fields notice is
    flashed as an error and the file is neither written nor changed. *)
Theorem add_course_rejects_empty_field (req : request) (n c i s : string) (w : world) :
  method req = "POST"%string ->
  form_get "name" (form req) = Some n ->
  form_get "code" (form req) = Some c ->
  form_get "instructor" (form req) = Some i ->
  form_get "semester" (form req) = Some s ->
  Py.strip n = ""%string \/ Py.strip c = ""%string \/ Py.strip i = ""%string ->
  let w' := snd (add_course req w) in
  fst (add_course req w) = inr (Some (Page "add_course.html" [])) /\
  status_code (Page "add_course.html" []) = 200%Z /\
  flashes w' =
    flashes w ++ [("error", "Fields marked with * are the required fields."%string)] /\
  file w' = file w /\ writes w' = writes w.
Proof.
  intros Hm Hn Hc Hi Hs Hempty w'.
  pose proof (add_course_body_post req n c i s w Hm Hn Hc Hi Hs) as Hrun.
  apply required_field_empty in Hempty. rewrite Hempty in Hrun.
  apply guarded_returns with (failure := "Error in add_course_page route") in Hrun.
  fold (add_course req) in Hrun. subst w'. rewrite Hrun. cbn. auto.
Qed.

(** The witness of C4: the instructor is blank, name and code are given. *)
Lemma add_course_rejects_empty_field_witness :
  let req := mkRequest "POST" [("name", "Logic"); ("code", "CS302");
                               ("instructor", "  "); ("semester", "Fall")]%string in
  Py.strip "  " = ""%string /\
  fst (add_course req sample_world) = inr (Some (Page "add_course.html" [])) /\
  file (snd (add_course req sample_world)) = file sample_world.
Proof.
  intros req.
  pose proof (add_course_rejects_empty_field req "Logic" "CS302" "  " "Fall"
                sample_world eq_refl eq_refl eq_refl eq_refl eq_refl
                (or_intror (or_intror eq_refl))) as H.
  refine (conj eq_refl (conj (proj1 H) _)).
  exact (proj1 (proj2 (proj2 (proj2 H)))).
Defined.

(** C9: a POST whose form lacks the key name, code, instructor or semester
    raises AttributeError while the fields are read (strip on None); the
    view catches it, logs it and returns no response; nothing is flashed and
    the file is neither written nor changed. *)
Theorem add_course_missing_key (req : request) (w : world) :
  method req = "POST"%string ->
  form_get "name" (form req) = None \/ form_get "code" (form req) = None \/
  form_get "instructor" (form req) = None \/ form_get "semester" (form req) = None ->
  add_course_body req w = (inl AttributeError, w) /\
  add_course req w =
    (inr None, add_log (failure_entry "Error in add_course_page route" AttributeError) w) /\
  flashes (snd (add_course req w)) = flashes w /\
  file (snd (add_course req w)) = file w /\
  writes (snd (add_course req w)) = writes w.
Proof.
  intros Hm Hmiss.
  assert (Hrun : add_course_body req w = (inl AttributeError, w)).
  { unfold add_course_body. rewrite Hm. cbn [String.eqb Ascii.eqb Bool.eqb].
    unfold bind, lift.
    destruct (form_get "name" (form req)); [| reflexivity].
    destruct (form_get "code" (form req)); [| reflexivity].
    destruct (form_get "instructor" (form req)); [| reflexivity].
    destruct (form_get "semester" (form req)); [| reflexivity].
    destruct Hmiss as [H | [H | [H | H]]]; discriminate H. }
  split; [exact Hrun |].
  apply guarded_raises with (failure := "Error in add_course_page route") in Hrun.
  fold (add_course req) in Hrun. rewrite Hrun. cbn. auto.
Qed.

(** The witness of C9: a POST that sends a name and nothing else. *)
Lemma add_course_missing_key_witness :
  fst (add_course (mkRequest "POST" [("name", "Logic")]%string) sample_world) = inr None.
Proof.
  exact (f_equal fst (proj1 (proj2
    (add_course_missing_key (mkRequest "POST" [("name", "Logic")]%string)
       sample_world eq_refl (or_intror (or_introl eq_refl)))))).
Defined.

(** C5, the code at the failing input: name, code and instructor are valid
    and the form has no semester key.  No record is built or stored, nothing
    is flashed and the view returns no response. *)
Theorem add_course_without_semester (w : world) :
  let req := mkRequest "POST" [("name", "Algorithms"); ("code", "CS301");
                               ("instructor", "Dr. A")]%string in
  add_course req w =
    (inr None, add_log (failure_entry "Error in add_course_page route" AttributeError) w) /\
  file (snd (add_course req w)) = file w /\
  flashes (snd (add_course req w)) = flashes w.
Proof.
  cbv zeta. repeat split.
Qed.

Lemma add_course_body_valid (req : request) (n c i s : string) (w : world) (L : list json) :
  method req = "POST"%string ->
  form_get "name" (form req) = Some n ->
  form_get "code" (form req) = Some c ->
  form_get "instructor" (form req) = Some i ->
  form_get "semester" (form req) = Some s ->
  Py.strip n <> ""%string -> Py.strip c <> ""%string -> Py.strip i <> ""%string ->
  loads w L -> writable w = true ->
  exists w1,
    add_course_body req w = (inr (Redirect "/catalog"), w1) /\
    file w1 =
      Holds (JArr (L ++ [course_of (Py.strip n) (Py.strip c) (Py.strip i) (Py.strip s)])) /\
    writes w1 = S (writes w) /\
    flashes w1 = flashes w ++ [("success", "Course added successfully!"%string)].
Proof.
  intros Hm Hn Hc Hi Hs Vn Vc Vi HL HW.
  rewrite (add_course_body_post req n c i s w Hm Hn Hc Hi Hs).
  apply String.eqb_neq in Vn, Vc, Vi. rewrite Vn, Vc, Vi. cbn [orb].
  destruct (save_courses_run
              (course_of (Py.strip n) (Py.strip c) (Py.strip i) (Py.strip s))
              w L HL HW) as (w1 & Hsave & Hfile & Hwrites & _ & Hflashes).
  unfold bind at 1. rewrite Hsave.
  eexists. split; [reflexivity |]. cbn. rewrite Hflashes. auto.
Qed.

(** C7: no check of the code is made on add.  In a world whose catalog [L]
    already holds a record [old] with code [c'], and whose file can be
    written, a valid POST whose stripped code is [c'] too is accepted like
    any other: success notice, redirect to /catalog, and afterwards the
    catalog is [L] followed by the new record, so it holds [old] and, last,
    the new record with the same code. *)
Theorem add_course_accepts_duplicate_code
    (req : request) (n c i s : string) (w : world) (L : list json) (old : json) :
  method req = "POST"%string ->
  form_get "name" (form req) = Some n ->
  form_get "code" (form req) = Some c ->
  form_get "instructor" (form req) = Some i ->
  form_get "semester" (form req) = Some s ->
  Py.strip n <> ""%string -> Py.strip c <> ""%string -> Py.strip i <> ""%string ->
  loads w L -> writable w = true ->
  In old L -> code_is (Py.strip c) old = true ->
  let new := course_of (Py.strip n) (Py.strip c) (Py.strip i) (Py.strip s) in
  let w' := snd (add_course req w) in
  fst (add_course req w) = inr (Some (Redirect "/catalog")) /\
  flashes w' = flashes w ++ [("success", "Course added successfully!"%string)] /\
  loads w' (L ++ [new]) /\
  In old (L ++ [new]) /\
  last (L ++ [new]) JNull = new /\
  code_is (Py.strip c) new = true.
Proof.
  intros Hm Hn Hc Hi Hs Vn Vc Vi HL HW Hin Hold new w'.
  destruct (add_course_body_valid req n c i s w L Hm Hn Hc Hi Hs Vn Vc Vi HL HW)
    as (w1 & Hrun & Hfile & _ & Hflashes).
  apply guarded_returns with (failure := "Error in add_course_page route") in Hrun.
  fold (add_course req) in Hrun. subst w'. rewrite Hrun. cbn [fst snd].
  split; [reflexivity |]. split; [exact Hflashes |].
  split; [apply loads_of_file; exact Hfile |].
  split; [apply in_or_app; left; exact Hin |].
  split; [apply last_last |].
  unfold code_is, new, course_of. cbn. apply String.eqb_refl.
Qed.

(** The witness of C7: a second course under the code CS301. *)
Lemma add_course_accepts_duplicate_code_witness :
  let req := mkRequest "POST" [("name", "Logic"); ("code", " CS301 ");
                               ("instructor", "Dr. B"); ("semester", "")]%string in
  loads sample_world [algorithms] /\
  code_is (Py.strip " CS301 ") algorithms = true /\
  loads (snd (add_course req sample_world))
    ([algorithms] ++ [course_of "Logic" "CS301" "Dr. B" ""]).
Proof.
  intros req.
  assert (HL : loads sample_world [algorithms]) by reflexivity.
  assert (Hold : code_is (Py.strip " CS301 ") algorithms = true) by reflexivity.
  refine (conj HL (conj Hold _)).
  refine (proj1 (proj2 (proj2
    (add_course_accepts_duplicate_code req "Logic" " CS301 " "Dr. B" ""
       sample_world [algorithms] algorithms
       eq_refl eq_refl eq_refl eq_refl eq_refl _ _ _ HL eq_refl
       (or_introl eq_refl) Hold)))); discriminate.
Defined.

(* ------------------------------------------------------------------ *)
(** * Saving, whatever the file allows *)

Lemma save_courses_to_file_any (doc : json) (w : world) :
  save_courses_to_file doc w =
    (inr tt,
     if writable w then add_log saved_entry (overwrite doc w)
     else add_log save_error_entry w).
Proof.
  unfold save_courses_to_file. step. destruct (writable w); reflexivity.
Qed.

Lemma save_courses_any (data : json) (w : world) :
  exists w1,
    save_courses data w = (inr tt, w1) /\
    flashes w1 = flashes w /\
    writable w1 = writable w /\
    ((file w1 = file w /\ writes w1 = writes w /\
      (writable w = false \/ forall L, stored w <> JArr L)) \/
     (exists L, stored w = JArr L /\ writable w = true /\
                file w1 = Holds (JArr (L ++ [data])) /\
                writes w1 = S (writes w))).
Proof.
  unfold save_courses, try_except, bind. rewrite load_courses_run.
  unfold lift at 1.
  destruct (Py.append (stored w) data) as [e | doc] eqn:Happ.
  - unfold logger. eexists. split; [reflexivity |]. cbn.
    rewrite after_load_flashes, after_load_writable, after_load_file,
      after_load_writes.
    split; [reflexivity |]. split; [reflexivity |]. left.
    split; [reflexivity |]. split; [reflexivity |]. right.
    intros L HL. rewrite HL in Happ. discriminate Happ.
  - assert (HL : exists L, stored w = JArr L /\ doc = JArr (L ++ [data])).
    { destruct (stored w); try discriminate Happ.
      injection Happ as <-. eexists. split; reflexivity. }
    destruct HL as (L & HL & ->).
    rewrite save_courses_to_file_any, after_load_writable.
    destruct (writable w) eqn:HW;
      unfold lift, logger;
      destruct (Py.get data "name") as [e | name];
      [| destruct (Py.get data "code") as [e | code]
       | | destruct (Py.get data "code") as [e | code]];
      (eexists; split; [reflexivity |]; cbn;
       rewrite ?after_load_flashes, ?after_load_writable, ?after_load_file,
         ?after_load_writes;
       split; [reflexivity |]; split; [exact HW |]);
      first [ solve [right; exists L; auto]
            | solve [left; auto] ].
Qed.

(** X1: [save_courses] never raises and never flashes.  It either leaves the
    file as it was, or, when the loaded document is a list and the file can
    be written, replaces the file once by that list with the record added at
    its end. *)
Theorem save_courses_total (data : json) (w : world) :
  exists w1,
    save_courses data w = (inr tt, w1) /\
    flashes w1 = flashes w /\
    writable w1 = writable w /\
    ((file w1 = file w /\ writes w1 = writes w /\
      (writable w = false \/ forall L, stored w <> JArr L)) \/
     (exists L, stored w = JArr L /\ writable w = true /\
                file w1 = Holds (JArr (L ++ [data])) /\
                writes w1 = S (writes w))).
Proof. exact (save_courses_any data w). Qed.

(** The core of a valid POST, in every world. *)
Lemma add_course_body_valid_any (req : request) (n c i s : string) (w : world) :
  method req = "POST"%string ->
  form_get "name" (form req) = Some n ->
  form_get "code" (form req) = Some c ->
  form_get "instructor" (form req) = Some i ->
  form_get "semester" (form req) = Some s ->
  Py.strip n <> ""%string -> Py.strip c <> ""%string -> Py.strip i <> ""%string ->
  exists w0 w1,
    save_courses (course_of (Py.strip n) (Py.strip c) (Py.strip i) (Py.strip s)) w
      = (inr tt, w0) /\
    add_course req w = (inr (Some (Redirect "/catalog")), w1) /\
    file w1 = file w0 /\ writes w1 = writes w0 /\ writable w1 = writable w0 /\
    flashes w1 = flashes w ++ [("success", "Course added successfully!"%string)].
Proof.
  intros Hm Hn Hc Hi Hs Vn Vc Vi.
  destruct (save_courses_any
              (course_of (Py.strip n) (Py.strip c) (Py.strip i) (Py.strip s)) w)
    as (w0 & Hsave & Hflashes & _).
  exists w0. eexists. split; [exact Hsave |].
  assert (Hrun : add_course_body req w =
    (inr (Redirect "/catalog"),
     add_log (added_entry (Py.strip n) (Py.strip c))
       (add_flash ("success", "Course added successfully!"%string) w0))).
  { rewrite (add_course_body_post req n c i s w Hm Hn Hc Hi Hs).
    apply String.eqb_neq in Vn, Vc, Vi. rewrite Vn, Vc, Vi. cbn [orb].
    unfold bind at 1. rewrite Hsave. reflexivity. }
  apply guarded_returns with (failure := "Error in add_course_page route") in Hrun.
  fold (add_course req) in Hrun. split; [exact Hrun |].
  cbn. rewrite Hflashes. auto.
Qed.

(** X2: a valid POST is answered with the success notice and the redirect to
    /catalog in every world, also when nothing was stored: when the file
    cannot be written, or when it holds a document that is no list, the file
    is left as it was. *)
Theorem add_course_reports_success_without_saving
    (req : request) (n c i s : string) (w : world) :
  method req = "POST"%string ->
  form_get "name" (form req) = Some n ->
  form_get "code" (form req) = Some c ->
  form_get "instructor" (form req) = Some i ->
  form_get "semester" (form req) = Some s ->
  Py.strip n <> ""%string -> Py.strip c <> ""%string -> Py.strip i <> ""%string ->
  let w' := snd (add_course req w) in
  fst (add_course req w) = inr (Some (Redirect "/catalog")) /\
  flashes w' = flashes w ++ [("success", "Course added successfully!"%string)] /\
  (writable w = false -> file w' = file w /\ writes w' = writes w) /\
  (forall doc, file w = Holds doc -> (forall L, doc <> JArr L) ->
               file w' = file w /\ writes w' = writes w).
Proof.
  intros Hm Hn Hc Hi Hs Vn Vc Vi w'.
  destruct (add_course_body_valid_any req n c i s w Hm Hn Hc Hi Hs Vn Vc Vi)
    as (w0 & w1 & Hsave & Hrun & Hfile & Hwrites & _ & Hflashes).
  destruct (save_courses_any
              (course_of (Py.strip n) (Py.strip c) (Py.strip i) (Py.strip s)) w)
    as (w0' & Hsave' & _ & _ & Hcases).
  rewrite Hsave in Hsave'. injection Hsave' as <-.
  subst w'. rewrite Hrun. cbn [fst snd]. rewrite Hfile, Hwrites.
  split; [reflexivity |]. split; [exact Hflashes |]. split.
  - intros HW. destruct Hcases as [(Hf & Hw & _) | (L & _ & HW' & _)]; [auto |].
    congruence.
  - intros doc Hdoc Hnot.
    destruct Hcases as [(Hf & Hw & _) | (L & HL & _)]; [auto |].
    unfold stored in HL. rewrite Hdoc in HL. destruct (Hnot L HL).
Qed.

(** The witness of X2: the file holds a JSON object, not a list. *)
Lemma add_course_reports_success_without_saving_witness :
  let req := mkRequest "POST" [("name", "Logic"); ("code", "CS302");
                               ("instructor", "Dr. B"); ("semester", "")]%string in
  let w := mkWorld (Holds (JObj [])) true 0 [] [] in
  fst (add_course req w) = inr (Some (Redirect "/catalog")) /\
  file (snd (add_course req w)) = Holds (JObj []).
Proof.
  intros req w.
  assert (H := add_course_reports_success_without_saving req
                 "Logic" "CS302" "Dr. B" "" w
                 eq_refl eq_refl eq_refl eq_refl eq_refl).
  destruct H as (H1 & _ & _ & H4); try discriminate.
  refine (conj H1 _).
  refine (proj1 (H4 (JObj []) eq_refl _)). intros L. discriminate.
Defined.

(* ------------------------------------------------------------------ *)
(** * The list page and the empty form *)

(** X3: in a world whose catalog is [L] (a missing or unreadable file
    counts as the empty catalog), [course_catalog] renders
    course_catalog.html with all of [L], in order, logs their number, flashes
    nothing and leaves the file alone. *)
Theorem course_catalog_lists_every_record (w : world) (L : list json) :
  loads w L ->
  let w' := snd (course_catalog w) in
  fst (course_catalog w) =
    inr (Some (Page "course_catalog.html" [("courses", JArr L)])) /\
  log w' = log (snd (load_courses w)) ++ [catalog_entry (length L)] /\
  flashes w' = flashes w /\ file w' = file w /\ writes w' = writes w.
Proof.
  intros HL w'. apply loads_stored in HL.
  assert (Hrun : course_catalog_body w =
    (inr (Page "course_catalog.html" [("courses", JArr L)]),
     add_log (catalog_entry (length L)) (after_load w))).
  { unfold course_catalog_body, bind. rewrite load_courses_run, HL. reflexivity. }
  apply guarded_returns with (failure := "Error rendering catalog page") in Hrun.
  fold course_catalog in Hrun. subst w'. rewrite Hrun, load_courses_run. cbn.
  rewrite after_load_flashes, after_load_file, after_load_writes. auto.
Qed.

(** The witness of X3: the one-course catalog. *)
Lemma course_catalog_lists_every_record_witness :
  loads sample_world [algorithms] /\
  fst (course_catalog sample_world) =
    inr (Some (Page "course_catalog.html" [("courses", JArr [algorithms])])).
Proof.
  assert (HL : loads sample_world [algorithms]) by reflexivity.
  refine (conj HL _).
  exact (proj1 (course_catalog_lists_every_record sample_world [algorithms] HL)).
Defined.

(** X4: when the file holds a document that has no length (None, a bool or
    a number), [course_catalog] fails on [len(courses)]: the TypeError is
    logged, the view returns no response and the file is left alone. *)
Theorem course_catalog_document_without_length (w : world) (doc : json) :
  file w = Holds doc -> Py.len doc = inl TypeError ->
  course_catalog w =
    (inr None, add_log (failure_entry "Error rendering catalog page" TypeError) w).
Proof.
  intros Hdoc Hlen.
  assert (Hrun : course_catalog_body w = (inl TypeError, w)).
  { unfold course_catalog_body, bind. rewrite load_courses_run.
    unfold stored, after_load. rewrite Hdoc. unfold lift. rewrite Hlen.
    reflexivity. }
  apply guarded_raises with (failure := "Error rendering catalog page") in Hrun.
  exact Hrun.
Qed.

(** The witness of X4: the file holds the number 42. *)
Lemma course_catalog_document_without_length_witness :
  fst (course_catalog (mkWorld (Holds (JInt 42)) true 0 [] [])) = inr None.
Proof.
  exact (f_equal fst
    (course_catalog_document_without_length
       (mkWorld (Holds (JInt 42)) true 0 [] []) (JInt 42) eq_refl eq_refl)).
Defined.

(** X5: a request to /add_course whose method is not POST gets the empty
    form (add_course.html with an empty context); the form data is not
    looked at, nothing is flashed and the file is left alone. *)
Theorem add_course_shows_form (req : request) (w : world) :
  method req <> "POST"%string ->
  add_course req w = (inr (Some (Page "add_course.html" [])), add_log form_entry w).
Proof.
  intros Hm. apply String.eqb_neq in Hm.
  assert (Hrun : add_course_body req w =
                 (inr (Page "add_course.html" []), add_log form_entry w)).
  { unfold add_course_body. rewrite Hm. reflexivity. }
  apply guarded_returns with (failure := "Error in add_course_page route") in Hrun.
  exact Hrun.
Qed.

(** The witness of X5: a GET that carries no form. *)
Lemma add_course_shows_form_witness :
  fst (add_course (mkRequest "GET" []) sample_world) =
    inr (Some (Page "add_course.html" [])).
Proof.
  refine (f_equal fst
    (add_course_shows_form (mkRequest "GET" []) sample_world _)).
  discriminate.
Defined.

(* ------------------------------------------------------------------ *)
(** * Deleting, whatever the file allows *)

Lemma delete_course_body_run_any (w : world) (L : list json) (code : string) :
  loads w L -> Forall keyed L ->
  delete_course_body code w =
    (inr (Redirect "/catalog"),
     if existsb (code_is code) L then
       add_log (deleted_entry code)
         (add_flash ("success", "Course deleted successfully!")
            (if writable w then
               add_log saved_entry
                 (overwrite (JArr (filter (fun r => negb (code_is code r)) L))
                    (after_load w))
             else add_log save_error_entry (after_load w)))
     else
       add_flash ("error", not_found_notice code)
         (add_log (not_deleted_entry code) (after_load w))).
Proof.
  intros HL HK. apply loads_stored in HL.
  unfold delete_course_body, bind. rewrite load_courses_run, HL.
  unfold lift. cbn [Py.iter Py.len]. rewrite (keep_others_keyed L code HK).
  rewrite filter_all_kept.
  destruct (existsb (code_is code) L); cbn [negb]; [| reflexivity].
  rewrite save_courses_to_file_any, after_load_writable.
  destruct (writable w); reflexivity.
Qed.

Lemma delete_course_run_any (w : world) (L : list json) (code : string) :
  loads w L -> Forall keyed L ->
  delete_course code w =
    (inr (Some (Redirect "/catalog")), snd (delete_course_body code w)).
Proof.
  intros HL HK. unfold delete_course.
  rewrite (guarded_returns _ _ w (Redirect "/catalog") (snd (delete_course_body code w)));
    [reflexivity |].
  rewrite (delete_course_body_run_any w L code HL HK). reflexivity.
Qed.

(** X6: when a record matches but the file cannot be written,
    [delete_course] still flashes the success notice and redirects; the
    failed write is only logged, and the file keeps every record. *)
Theorem delete_course_reports_success_without_saving
    (w : world) (L : list json) (c : string) :
  loads w L -> Forall keyed L -> writable w = false ->
  existsb (code_is c) L = true ->
  let w' := snd (delete_course c w) in
  fst (delete_course c w) = inr (Some (Redirect "/catalog")) /\
  flashes w' = flashes w ++ [("success", "Course deleted successfully!"%string)] /\
  In save_error_entry (log w') /\
  file w' = file w /\ writes w' = writes w /\ loads w' L.
Proof.
  intros HL HK HW Hex w'. subst w'.
  rewrite (delete_course_run_any w L c HL HK),
    (delete_course_body_run_any w L c HL HK), Hex, HW. cbn.
  rewrite after_load_flashes, after_load_file, after_load_writes.
  split; [reflexivity |]. split; [reflexivity |]. split.
  - apply in_or_app. left. apply in_or_app. right. left. reflexivity.
  - split; [reflexivity |]. split; [reflexivity |].
    apply loads_same_file with (w := w); [| exact HL]. cbn. apply after_load_file.
Qed.

(** The witness of X6: the one-course catalog on a read-only file. *)
Lemma delete_course_reports_success_without_saving_witness :
  let w := mkWorld (Holds (JArr [algorithms])) false 0 [] [] in
  loads w [algorithms] /\
  file (snd (delete_course "CS301" w)) = Holds (JArr [algorithms]).
Proof.
  intros w.
  assert (HL : loads w [algorithms]) by reflexivity.
  assert (HK : Forall keyed [algorithms]).
  { repeat constructor. exists (JStr "CS301"). reflexivity. }
  refine (conj HL _).
  exact (proj1 (proj2 (proj2 (proj2
    (delete_course_reports_success_without_saving w [algorithms] "CS301"
       HL HK eq_refl eq_refl))))).
Defined.

(* ------------------------------------------------------------------ *)
(** * Requests one after the other *)

Lemma keyed_course_of (n c i s : string) : keyed (course_of n c i s).
Proof. exists (JStr c). reflexivity. Qed.

Lemma code_is_course_of (code n c i s : string) :
  code_is code (course_of n c i s) = (c =? code)%string.
Proof. reflexivity. Qed.

Lemma Forall_keyed_filter (p : json -> bool) (L : list json) :
  Forall keyed L -> Forall keyed (filter p L).
Proof.
  rewrite !Forall_forall. intros H r Hr. apply filter_In in Hr. apply H, Hr.
Qed.

Lemma existsb_filter_out {A} (p : A -> bool) (L : list A) :
  existsb p (filter (fun x => negb (p x)) L) = false.
Proof.
  induction L as [| x L IH]; [reflexivity |].
  cbn [filter]. destruct (p x) eqn:Hx; cbn [negb existsb]; [exact IH |].
  rewrite Hx, IH. reflexivity.
Qed.

Lemma filter_none_out {A} (p : A -> bool) (L : list A) :
  (forall x, In x L -> p x = false) -> filter (fun x => negb (p x)) L = L.
Proof.
  induction L as [| x L IH]; intros H; [reflexivity |].
  cbn [filter]. rewrite (H x (or_introl eq_refl)). cbn [negb].
  f_equal. apply IH. intros y Hy. apply H. right. exact Hy.
Qed.

Lemma find_last {A} (p : A -> bool) (L : list A) (x : A) :
  find p (L ++ [x]) =
    match find p L with
    | Some y => Some y
    | None => if p x then Some x else None
    end.
Proof.
  induction L as [| y L IH]; [reflexivity |].
  cbn [app find]. destruct (p y); [reflexivity | exact IH].
Qed.

(** The world after a valid POST, in a catalog that can be written. *)
Lemma add_course_run (req : request) (n c i s : string) (w : world) (L : list json) :
  method req = "POST"%string ->
  form_get "name" (form req) = Some n ->
  form_get "code" (form req) = Some c ->
  form_get "instructor" (form req) = Some i ->
  form_get "semester" (form req) = Some s ->
  Py.strip n <> ""%string -> Py.strip c <> ""%string -> Py.strip i <> ""%string ->
  loads w L -> writable w = true ->
  let w' := snd (add_course req w) in
  fst (add_course req w) = inr (Some (Redirect "/catalog")) /\
  file w' =
    Holds (JArr (L ++ [course_of (Py.strip n) (Py.strip c) (Py.strip i) (Py.strip s)])) /\
  writable w' = true /\ writes w' = S (writes w) /\
  flashes w' = flashes w ++ [("success", "Course added successfully!"%string)].
Proof.
  intros Hm Hn Hc Hi Hs Vn Vc Vi HL HW w'.
  destruct (add_course_body_valid_any req n c i s w Hm Hn Hc Hi Hs Vn Vc Vi)
    as (w0 & w1 & Hsave & Hrun & Hfile & Hwrites & Hwritable & Hflashes).
  destruct (save_courses_run
              (course_of (Py.strip n) (Py.strip c) (Py.strip i) (Py.strip s))
              w L HL HW) as (w0' & Hsave' & Hfile0 & Hwrites0 & Hwritable0 & _).
  rewrite Hsave in Hsave'. injection Hsave' as <-.
  subst w'. rewrite Hrun. cbn [fst snd].
  rewrite Hfile, Hwrites, Hwritable. auto.
Qed.

(** X7: a valid POST in a world whose file is missing or fails to load, and
    can be written, leaves a file that holds the new record alone: whatever
    an unreadable file contained is replaced. *)
Theorem add_course_replaces_unreadable_file
    (req : request) (n c i s : string) (w : world) :
  method req = "POST"%string ->
  form_get "name" (form req) = Some n ->
  form_get "code" (form req) = Some c ->
  form_get "instructor" (form req) = Some i ->
  form_get "semester" (form req) = Some s ->
  Py.strip n <> ""%string -> Py.strip c <> ""%string -> Py.strip i <> ""%string ->
  file w = Absent \/ (exists e, file w = Broken e) ->
  writable w = true ->
  file (snd (add_course req w)) =
    Holds (JArr [course_of (Py.strip n) (Py.strip c) (Py.strip i) (Py.strip s)]).
Proof.
  intros Hm Hn Hc Hi Hs Vn Vc Vi Hfile HW.
  assert (HL : loads w []).
  { unfold loads. rewrite load_courses_run. unfold stored.
    destruct Hfile as [-> | [e ->]]; reflexivity. }
  exact (proj1 (proj2
    (add_course_run req n c i s w [] Hm Hn Hc Hi Hs Vn Vc Vi HL HW))).
Qed.

(** The witness of X7: the file exists and does not parse. *)
Lemma add_course_replaces_unreadable_file_witness :
  let req := mkRequest "POST" [("name", "Logic"); ("code", "CS302");
                               ("instructor", "Dr. B"); ("semester", "")]%string in
  file (snd (add_course req (mkWorld (Broken JSONDecodeError) true 0 [] []))) =
    Holds (JArr [course_of "Logic" "CS302" "Dr. B" ""]).
Proof.
  intros req.
  refine (add_course_replaces_unreadable_file req "Logic" "CS302" "Dr. B" ""
            (mkWorld (Broken JSONDecodeError) true 0 [] [])
            eq_refl eq_refl eq_refl eq_refl eq_refl _ _ _
            (or_intror (ex_intro _ JSONDecodeError eq_refl)) eq_refl);
    discriminate.
Defined.

(** X8: deleting the same code a second time changes nothing.  In a catalog
    of records that carry a code, on a file that can be written, the second
    [delete_course c] flashes the not-found notice, redirects, and leaves the
    file and the number of writes as the first one left them. *)
Theorem delete_course_twice (w : world) (L : list json) (c : string) :
  loads w L -> Forall keyed L -> writable w = true ->
  let w1 := snd (delete_course c w) in
  let w2 := snd (delete_course c w1) in
  fst (delete_course c w1) = inr (Some (Redirect "/catalog")) /\
  flashes w2 = flashes w1 ++ [("error", not_found_notice c)] /\
  file w2 = file w1 /\ writes w2 = writes w1 /\
  loads w1 (filter (fun r => negb (code_is c r)) L).
Proof.
  intros HL HK HW w1 w2.
  set (kept := filter (fun r => negb (code_is c r)) L).
  assert (H1 : loads w1 kept /\ writable w1 = true).
  { subst w1. rewrite (delete_course_run_any w L c HL HK),
      (delete_course_body_run_any w L c HL HK), HW. cbn [snd].
    destruct (existsb (code_is c) L) eqn:Hex.
    - split; [apply loads_of_file; reflexivity |].
      cbn. rewrite after_load_writable. exact HW.
    - split.
      + assert (kept = L) as ->.
        { apply filter_none_out. intros r Hr.
          destruct (code_is c r) eqn:Hc; [| reflexivity].
          assert (existsb (code_is c) L = true) by (apply existsb_exists; eauto).
          congruence. }
        apply loads_same_file with (w := w); [| exact HL]. cbn. apply after_load_file.
      + cbn. rewrite after_load_writable. exact HW. }
  destruct H1 as [HL1 HW1].
  assert (HK1 : Forall keyed kept) by (apply Forall_keyed_filter; exact HK).
  subst w2. rewrite (delete_course_run_any w1 kept c HL1 HK1),
    (delete_course_body_run_any w1 kept c HL1 HK1).
  pose proof (existsb_filter_out (code_is c) L) as Hout. fold kept in Hout.
  rewrite Hout. cbn.
  rewrite after_load_flashes, after_load_file, after_load_writes. auto.
Qed.

(** The witness of X8: CS301 deleted twice from the one-course catalog. *)
Lemma delete_course_twice_witness :
  loads sample_world [algorithms] /\
  file (snd (delete_course "CS301" (snd (delete_course "CS301" sample_world)))) =
    file (snd (delete_course "CS301" sample_world)).
Proof.
  assert (HL : loads sample_world [algorithms]) by reflexivity.
  assert (HK : Forall keyed [algorithms]).
  { repeat constructor. exists (JStr "CS301"). reflexivity. }
  refine (conj HL _).
  exact (proj1 (proj2 (proj2
    (delete_course_twice sample_world [algorithms] "CS301" HL HK eq_refl)))).
Defined.

(** X9: adding a course under a code no stored record has and then deleting
    that code restores the catalog.  After the valid POST and
    [delete_course] of its stripped code the file holds [L] again, and the
    delete flashes the success notice. *)
Theorem add_then_delete_restores
    (req : request) (n c i s : string) (w : world) (L : list json) :
  method req = "POST"%string ->
  form_get "name" (form req) = Some n ->
  form_get "code" (form req) = Some c ->
  form_get "instructor" (form req) = Some i ->
  form_get "semester" (form req) = Some s ->
  Py.strip n <> ""%string -> Py.strip c <> ""%string -> Py.strip i <> ""%string ->
  loads w L -> Forall keyed L -> writable w = true ->
  (forall r, In r L -> code_is (Py.strip c) r = false) ->
  let w1 := snd (add_course req w) in
  let w2 := snd (delete_course (Py.strip c) w1) in
  file w2 = Holds (JArr L) /\
  flashes w2 =
    flashes w ++ [("success", "Course added successfully!"%string);
                  ("success", "Course deleted successfully!"%string)].
Proof.
  intros Hm Hn Hc Hi Hs Vn Vc Vi HL HK HW Hfresh w1 w2.
  set (new := course_of (Py.strip n) (Py.strip c) (Py.strip i) (Py.strip s)).
  destruct (add_course_run req n c i s w L Hm Hn Hc Hi Hs Vn Vc Vi HL HW)
    as (_ & Hfile & HW1 & _ & Hflashes).
  fold w1 new in Hfile, HW1, Hflashes.
  assert (HL1 : loads w1 (L ++ [new])) by (apply loads_of_file; exact Hfile).
  assert (HK1 : Forall keyed (L ++ [new])).
  { apply Forall_app. split; [exact HK |]. repeat constructor.
    apply keyed_course_of. }
  assert (Hex : existsb (code_is (Py.strip c)) (L ++ [new]) = true).
  { apply existsb_exists. exists new. split; [apply in_or_app; right; left; reflexivity |].
    unfold new. rewrite code_is_course_of. apply String.eqb_refl. }
  assert (Hkept : filter (fun r => negb (code_is (Py.strip c) r)) (L ++ [new]) = L).
  { rewrite filter_app, (filter_none_out _ L Hfresh). cbn [filter].
    unfold new at 1. rewrite code_is_course_of, String.eqb_refl. cbn [negb].
    apply app_nil_r. }
  subst w2. rewrite (delete_course_run_any w1 _ _ HL1 HK1),
    (delete_course_body_run_any w1 _ _ HL1 HK1), Hex, HW1, Hkept. cbn.
  rewrite after_load_flashes, Hflashes, <- app_assoc. auto.
Qed.

(** The witness of X9: Logic is added to the one-course catalog and deleted. *)
Lemma add_then_delete_restores_witness :
  let req := mkRequest "POST" [("name", "Logic"); ("code", "CS302");
                               ("instructor", "Dr. B"); ("semester", "")]%string in
  loads sample_world [algorithms] /\
  file (snd (delete_course "CS302" (snd (add_course req sample_world)))) =
    Holds (JArr [algorithms]).
Proof.
  intros req.
  assert (HL : loads sample_world [algorithms]) by reflexivity.
  assert (HK : Forall keyed [algorithms]).
  { repeat constructor. exists (JStr "CS301"). reflexivity. }
  refine (conj HL _).
  refine (proj1
    (add_then_delete_restores req "Logic" "CS302" "Dr. B" "" sample_world
       [algorithms] eq_refl eq_refl eq_refl eq_refl eq_refl _ _ _ HL HK eq_refl _));
    try discriminate.
  intros r [<- | []]. reflexivity.
Defined.

(** X10: after a valid POST in a catalog [L] of records that carry a code,
    the details page of the new record's code shows the first record of [L]
    with that code when there is one, and the new record only otherwise: a
    record added under a code already in use is never shown by
    [course_details]. *)
Theorem add_then_details
    (req : request) (n c i s : string) (w : world) (L : list json) :
  method req = "POST"%string ->
  form_get "name" (form req) = Some n ->
  form_get "code" (form req) = Some c ->
  form_get "instructor" (form req) = Some i ->
  form_get "semester" (form req) = Some s ->
  Py.strip n <> ""%string -> Py.strip c <> ""%string -> Py.strip i <> ""%string ->
  loads w L -> Forall keyed L -> writable w = true ->
  let new := course_of (Py.strip n) (Py.strip c) (Py.strip i) (Py.strip s) in
  let shown :=
    match find (code_is (Py.strip c)) L with
    | Some old => old
    | None => new
    end in
  fst (course_details (Py.strip c) (snd (add_course req w))) =
    inr (Some (Page "course_details.html" [("course", shown)])).
Proof.
  intros Hm Hn Hc Hi Hs Vn Vc Vi HL HK HW new shown.
  destruct (add_course_run req n c i s w L Hm Hn Hc Hi Hs Vn Vc Vi HL HW)
    as (_ & Hfile & _).
  fold new in Hfile.
  set (w1 := snd (add_course req w)) in *.
  assert (HL1 : loads w1 (L ++ [new])) by (apply loads_of_file; exact Hfile).
  assert (HK1 : Forall keyed (L ++ [new])).
  { apply Forall_app. split; [exact HK |]. repeat constructor.
    apply keyed_course_of. }
  assert (Hnew : code_is (Py.strip c) new = true).
  { unfold new. rewrite code_is_course_of. apply String.eqb_refl. }
  assert (Hfind : find (code_is (Py.strip c)) (L ++ [new]) = Some shown).
  { rewrite find_last, Hnew. subst shown.
    destruct (find (code_is (Py.strip c)) L); reflexivity. }
  pose proof (next_match_keyed (L ++ [new]) (Py.strip c) HK1) as HN.
  rewrite Hfind in HN.
  destruct (find_some _ _ Hfind) as [_ Hshown].
  destruct (course_details_body_found w1 _ _ shown HL1 HN Hshown) as (w2 & Hrun & _).
  apply guarded_returns with (failure := "Error displaying course details") in Hrun.
  fold (course_details (Py.strip c)) in Hrun. rewrite Hrun. reflexivity.
Qed.

(** The witness of X10: a second course under the code CS301; the details
    page still shows Algorithms. *)
Lemma add_then_details_witness :
  let req := mkRequest "POST" [("name", "Logic"); ("code", "CS301");
                               ("instructor", "Dr. B"); ("semester", "")]%string in
  loads sample_world [algorithms] /\
  fst (course_details "CS301" (snd (add_course req sample_world))) =
    inr (Some (Page "course_details.html" [("course", algorithms)])).
Proof.
  intros req.
  assert (HL : loads sample_world [algorithms]) by reflexivity.
  assert (HK : Forall keyed [algorithms]).
  { repeat constructor. exists (JStr "CS301"). reflexivity. }
  refine (conj HL _).
  refine (add_then_details req "Logic" "CS301" "Dr. B" "" sample_world
            [algorithms] eq_refl eq_refl eq_refl eq_refl eq_refl _ _ _ HL HK eq_refl);
    discriminate.
Defined.

(* ------------------------------------------------------------------ *)
(** * What a view may touch *)

Ltac world_fields :=
  try change (url_for "course_catalog") with (@inr exn string "/catalog");
  cbn [fst snd file writes writable flashes log add_log add_flash overwrite];
  rewrite ?after_load_file, ?after_load_writes, ?after_load_writable,
    ?after_load_flashes.

Lemma course_catalog_frame (w : world) :
  let w' := snd (course_catalog w) in
  file w' = file w /\ writes w' = writes w /\ writable w' = writable w /\
  flashes w' = flashes w.
Proof.
  unfold course_catalog, guarded, course_catalog_body, try_except, bind.
  rewrite load_courses_run. unfold lift, logger, ret.
  destruct (Py.len (stored w)); world_fields; auto.
Qed.

Lemma course_details_frame (code : string) (w : world) :
  let w' := snd (course_details code w) in
  file w' = file w /\ writes w' = writes w /\ writable w' = writable w.
Proof.
  unfold course_details, guarded, course_details_body, try_except, bind.
  rewrite load_courses_run. unfold lift, logger, flash, redirect_to, bind, lift, ret.
  destruct (Py.iter (stored w)) as [e | items]; [world_fields; auto |].
  destruct (next_match items code) as [e | course]; [world_fields; auto |].
  destruct (Py.truthy course); cbn [negb]; [| world_fields; auto].
  destruct (Py.get course "name"); [world_fields; auto |].
  destruct (Py.get course "code"); world_fields; auto.
Qed.

(** What [add_course] does to the file, in every world. *)
Lemma add_course_frame (req : request) (w : world) :
  let w' := snd (add_course req w) in
  writable w' = writable w /\
  ((file w' = file w /\ writes w' = writes w) \/
   (exists L n c i s,
      stored w = JArr L /\ writable w = true /\
      n <> ""%string /\ c <> ""%string /\ i <> ""%string /\
      file w' = Holds (JArr (L ++ [course_of n c i s])) /\
      (exists n0, form_get "name" (form req) = Some n0 /\ n = Py.strip n0) /\
      (exists c0, form_get "code" (form req) = Some c0 /\ c = Py.strip c0) /\
      (exists i0, form_get "instructor" (form req) = Some i0 /\ i = Py.strip i0) /\
      (exists s0, form_get "semester" (form req) = Some s0 /\ s = Py.strip s0) /\
      writes w' = S (writes w))).
Proof.
  destruct (String.eqb_spec (method req) "POST") as [Hm | Hm].
  - destruct (form_get "name" (form req)) as [n |] eqn:Hn;
      [destruct (form_get "code" (form req)) as [c |] eqn:Hc;
       [destruct (form_get "instructor" (form req)) as [i |] eqn:Hi;
        [destruct (form_get "semester" (form req)) as [s |] eqn:Hs |] |] |].
    + destruct (((Py.strip n =? "") || (Py.strip c =? "") || (Py.strip i =? ""))%string)
        eqn:Hblank.
      * pose proof (add_course_body_post req n c i s w Hm Hn Hc Hi Hs) as Hrun.
        rewrite Hblank in Hrun.
        apply guarded_returns with (failure := "Error in add_course_page route") in Hrun.
        fold (add_course req) in Hrun. cbv zeta. rewrite Hrun. cbn. auto.
      * apply orb_false_iff in Hblank. destruct Hblank as [Hblank Vi].
        apply orb_false_iff in Hblank. destruct Hblank as [Vn Vc].
        apply String.eqb_neq in Vn, Vc, Vi.
        destruct (add_course_body_valid_any req n c i s w Hm Hn Hc Hi Hs Vn Vc Vi)
          as (w0 & w1 & Hsave & Hrun & Hfile & Hwrites & Hwritable & _).
        destruct (save_courses_any
                    (course_of (Py.strip n) (Py.strip c) (Py.strip i) (Py.strip s)) w)
          as (w0' & Hsave' & _ & HW0 & Hcases).
        rewrite Hsave in Hsave'. injection Hsave' as <-.
        cbv zeta. rewrite Hrun. cbn [snd]. rewrite Hfile, Hwrites, Hwritable.
        split; [exact HW0 |].
        destruct Hcases as [(Hf & Hw & _) | (L & HL & HW & Hf & Hw)]; [left; auto |].
        right. exists L, (Py.strip n), (Py.strip c), (Py.strip i), (Py.strip s).
        repeat (split; [first [assumption | discriminate | eauto] |]). exact Hw.
    + assert (Hrun : add_course_body req w = (inl AttributeError, w)).
      { unfold add_course_body. rewrite Hm, Hn, Hc, Hi, Hs. reflexivity. }
      apply guarded_raises with (failure := "Error in add_course_page route") in Hrun.
      fold (add_course req) in Hrun. cbv zeta. rewrite Hrun. cbn. auto.
    + assert (Hrun : add_course_body req w = (inl AttributeError, w)).
      { unfold add_course_body. rewrite Hm, Hn, Hc, Hi. reflexivity. }
      apply guarded_raises with (failure := "Error in add_course_page route") in Hrun.
      fold (add_course req) in Hrun. cbv zeta. rewrite Hrun. cbn. auto.
    + assert (Hrun : add_course_body req w = (inl AttributeError, w)).
      { unfold add_course_body. rewrite Hm, Hn, Hc. reflexivity. }
      apply guarded_raises with (failure := "Error in add_course_page route") in Hrun.
      fold (add_course req) in Hrun. cbv zeta. rewrite Hrun. cbn. auto.
    + assert (Hrun : add_course_body req w = (inl AttributeError, w)).
      { unfold add_course_body. rewrite Hm, Hn. reflexivity. }
      apply guarded_raises with (failure := "Error in add_course_page route") in Hrun.
      fold (add_course req) in Hrun. cbv zeta. rewrite Hrun. cbn. auto.
  - assert (Hrun : add_course_body req w =
                   (inr (Page "add_course.html" []), add_log form_entry w)).
    { unfold add_course_body. apply String.eqb_neq in Hm. rewrite Hm. reflexivity. }
    apply guarded_returns with (failure := "Error in add_course_page route") in Hrun.
    fold (add_course req) in Hrun. cbv zeta. rewrite Hrun. cbn. auto.
Qed.

(** What [delete_course] does to the file, in every world. *)
Lemma delete_course_frame (code : string) (w : world) :
  let w' := snd (delete_course code w) in
  writable w' = writable w /\
  ((file w' = file w /\ writes w' = writes w) \/
   (exists L kept,
      stored w = JArr L /\ keep_others L code = inr kept /\ writable w = true /\
      file w' = Holds (JArr kept) /\ writes w' = S (writes w))).
Proof.
  unfold delete_course, guarded, delete_course_body, try_except, bind.
  rewrite load_courses_run. unfold lift, logger, flash, redirect_to, bind, lift, ret.
  destruct (Py.iter (stored w)) as [e | items] eqn:Hiter; [world_fields; auto |].
  destruct (keep_others items code) as [e | kept] eqn:Hkeep; [world_fields; auto |].
  destruct (Py.len (stored w)) as [e | before] eqn:Hlen; [world_fields; auto |].
  destruct (before =? length kept)%nat eqn:Hsame; [world_fields; auto |].
  rewrite save_courses_to_file_any, after_load_writable.
  destruct (writable w) eqn:HW; world_fields; [| auto].
  split; [exact HW |].
  destruct (stored w) as [| | | | s | L | members] eqn:Hdoc; try discriminate Hiter.
  - (* a str: every character raises, so the text is empty and nothing differs *)
    cbn in Hiter, Hlen. injection Hiter as <-. injection Hlen as <-.
    destruct s; [cbn in Hkeep; injection Hkeep as <-; discriminate Hsame |].
    discriminate Hkeep.
  - injection Hiter as <-. right. exists L, kept. auto.
  - cbn in Hiter, Hlen. injection Hiter as <-. injection Hlen as <-.
    destruct members; [cbn in Hkeep; injection Hkeep as <-; discriminate Hsame |].
    discriminate Hkeep.
Qed.

(** X11: the pages that only read never touch the file.  In every world,
    whatever the file holds, [index], [course_catalog] and [course_details]
    leave the file and the number of writes as they were; the first two
    flash nothing either. *)
Theorem reading_views_never_write (w : world) :
  (file (snd (index w)) = file w /\ writes (snd (index w)) = writes w /\
   flashes (snd (index w)) = flashes w) /\
  (file (snd (course_catalog w)) = file w /\
   writes (snd (course_catalog w)) = writes w /\
   flashes (snd (course_catalog w)) = flashes w) /\
  (forall code,
     file (snd (course_details code w)) = file w /\
     writes (snd (course_details code w)) = writes w).
Proof.
  split; [cbn; auto |]. split.
  - destruct (course_catalog_frame w) as (H1 & H2 & _ & H4). auto.
  - intros code. destruct (course_details_frame code w) as (H1 & H2 & _). auto.
Qed.

(** X12: one request writes the file at most once.  In every world and for
    every view, either the file and the number of writes are unchanged, or
    the file could be written, the loaded document was a list, exactly one
    write was made and the file now holds a list; a file that holds another
    kind of document is never written over. *)
Theorem at_most_one_write (v : view) (w : world) :
  let w' := snd (dispatch v w) in
  writable w' = writable w /\
  ((file w' = file w /\ writes w' = writes w) \/
   (writable w = true /\ writes w' = S (writes w) /\
    exists L L', stored w = JArr L /\ file w' = Holds (JArr L'))).
Proof.
  destruct v as [| | code | req | code]; cbn [dispatch].
  - cbn. auto.
  - destruct (course_catalog_frame w) as (H1 & H2 & H3 & _). auto.
  - destruct (course_details_frame code w) as (H1 & H2 & H3). auto.
  - destruct (add_course_frame req w) as [HW [H | H]]; [auto |].
    destruct H as (L & n & c & i & s & HL & HWt & _ & _ & _ & Hfile & H).
    split; [exact HW |]. right. split; [exact HWt |].
    split; [apply H |]. eauto.
  - destruct (delete_course_frame code w) as [HW [H | H]]; [auto |].
    destruct H as (L & kept & HL & _ & HWt & Hfile & Hwrites).
    split; [exact HW |]. right. eauto 6.
Qed.

(* ------------------------------------------------------------------ *)
(** * Stripping and blank fields *)

Lemma blank_lstrip (s : string) : blank (Py.lstrip s) = blank s.
Proof.
  induction s as [| c rest IH]; [reflexivity |].
  cbn [Py.lstrip]. destruct (Py.isspace c) eqn:Hc.
  - rewrite IH. cbn [blank]. rewrite Hc. reflexivity.
  - reflexivity.
Qed.

Lemma rstrip_empty (s : string) : (Py.rstrip s =? "")%string = blank s.
Proof.
  induction s as [| c rest IH]; [reflexivity |].
  cbn [Py.rstrip blank]. destruct (Py.rstrip rest) as [| d kept].
  - rewrite <- IH. destruct (Py.isspace c); reflexivity.
  - rewrite <- IH. cbn. apply eq_sym, andb_false_r.
Qed.

Lemma strip_empty (s : string) : (Py.strip s =? "")%string = blank s.
Proof. unfold Py.strip. rewrite rstrip_empty. apply blank_lstrip. Qed.

Lemma rstrip_rstrip (s : string) : Py.rstrip (Py.rstrip s) = Py.rstrip s.
Proof.
  induction s as [| c rest IH]; [reflexivity |].
  cbn [Py.rstrip]. destruct (Py.rstrip rest) as [| d kept] eqn:Hrest.
  - destruct (Py.isspace c) eqn:Hc; [reflexivity |].
    cbn [Py.rstrip]. rewrite Hc. reflexivity.
  - cbn [Py.rstrip]. cbn [Py.rstrip] in IH. rewrite IH. reflexivity.
Qed.

Lemma lstrip_head (s : string) :
  Py.lstrip s = ""%string \/
  exists c rest, Py.lstrip s = String c rest /\ Py.isspace c = false.
Proof.
  induction s as [| c rest IH]; [left; reflexivity |].
  cbn [Py.lstrip]. destruct (Py.isspace c) eqn:Hc; [exact IH |].
  right. eauto.
Qed.

Lemma rstrip_keeps_head (c : ascii) (rest : string) :
  Py.isspace c = false ->
  exists kept, Py.rstrip (String c rest) = String c kept.
Proof.
  intros Hc. cbn [Py.rstrip]. rewrite Hc.
  destruct (Py.rstrip rest); eauto.
Qed.

Lemma strip_clean (s : string) : clean (Py.strip s).
Proof.
  unfold clean, Py.strip.
  destruct (lstrip_head s) as [-> | (c & rest & -> & Hc)]; [reflexivity |].
  destruct (rstrip_keeps_head c rest Hc) as [kept Hkept].
  rewrite Hkept. cbn [Py.lstrip]. rewrite Hc, <- Hkept. apply rstrip_rstrip.
Qed.

(** X13: which POSTs pass validation.  With the four keys present, in every
    world, [add_course] answers with the form page when name, code or
    instructor is blank (empty or whitespace only) and with the redirect to
    /catalog otherwise; the semester may be blank. *)
Theorem add_course_validation (req : request) (n c i s : string) (w : world) :
  method req = "POST"%string ->
  form_get "name" (form req) = Some n ->
  form_get "code" (form req) = Some c ->
  form_get "instructor" (form req) = Some i ->
  form_get "semester" (form req) = Some s ->
  fst (add_course req w) =
    inr (Some (if blank n || blank c || blank i
               then Page "add_course.html" []
               else Redirect "/catalog")).
Proof.
  intros Hm Hn Hc Hi Hs. rewrite <- !strip_empty.
  destruct (((Py.strip n =? "") || (Py.strip c =? "") || (Py.strip i =? ""))%string)
    eqn:Hblank.
  - pose proof (add_course_body_post req n c i s w Hm Hn Hc Hi Hs) as Hrun.
    rewrite Hblank in Hrun.
    apply guarded_returns with (failure := "Error in add_course_page route") in Hrun.
    fold (add_course req) in Hrun. rewrite Hrun. reflexivity.
  - apply orb_false_iff in Hblank. destruct Hblank as [Hblank Vi].
    apply orb_false_iff in Hblank. destruct Hblank as [Vn Vc].
    apply String.eqb_neq in Vn, Vc, Vi.
    destruct (add_course_body_valid_any req n c i s w Hm Hn Hc Hi Hs Vn Vc Vi)
      as (w0 & w1 & _ & Hrun & _).
    rewrite Hrun. reflexivity.
Qed.

(** The witness of X13: the code is a tab and two spaces. *)
Lemma add_course_validation_witness :
  let req :=
    mkRequest "POST"
      [("name", "Logic"); ("code", String (ascii_of_nat 9) "  ");
       ("instructor", "Dr. B"); ("semester", "")]%string in
  fst (add_course req sample_world) = inr (Some (Page "add_course.html" [])).
Proof.
  intros req.
  exact (add_course_validation req "Logic" (String (ascii_of_nat 9) "  ")
           "Dr. B" "" sample_world eq_refl eq_refl eq_refl eq_refl eq_refl).
Defined.

(* ------------------------------------------------------------------ *)
(** * The shape of what the application stores *)

Lemma course_record_keyed (r : json) : course_record r -> keyed r.
Proof. intros (n & c & i & s & -> & _). apply keyed_course_of. Qed.

Lemma sound_store_same_file (w w' : world) :
  file w' = file w -> sound_store w -> sound_store w'.
Proof. unfold sound_store. intros ->. auto. Qed.

Lemma sound_store_stored (w : world) (L : list json) :
  sound_store w -> stored w = JArr L -> Forall course_record L.
Proof.
  unfold sound_store, stored. destruct (file w) as [| e | doc].
  - intros _ H. injection H as <-. constructor.
  - intros [].
  - destruct doc; try (intros F; contradiction F).
    intros H E. injection E as <-. exact H.
Qed.

Lemma sound_store_step (v : view) (w : world) :
  sound_store w -> sound_store (snd (dispatch v w)).
Proof.
  intros Hs. destruct v as [| | code | req | code]; cbn [dispatch].
  - exact Hs.
  - apply sound_store_same_file with (w := w); [| exact Hs].
    apply course_catalog_frame.
  - apply sound_store_same_file with (w := w); [| exact Hs].
    apply course_details_frame.
  - destruct (add_course_frame req w) as [_ [[Hfile _] | H]].
    + apply sound_store_same_file with (w := w); assumption.
    + destruct H as (L & n & c & i & s & HL & _ & Vn & Vc & Vi & Hfile
                     & (n0 & _ & ->) & (c0 & _ & ->) & (i0 & _ & ->)
                     & (s0 & _ & ->) & _).
      unfold sound_store. rewrite Hfile. apply Forall_app. split.
      * exact (sound_store_stored w L Hs HL).
      * repeat constructor.
        exists (Py.strip n0), (Py.strip c0), (Py.strip i0), (Py.strip s0).
        repeat (split; [first [reflexivity | assumption | apply strip_clean] |]).
        apply strip_clean.
  - destruct (delete_course_frame code w) as [_ [[Hfile _] | H]].
    + apply sound_store_same_file with (w := w); assumption.
    + destruct H as (L & kept & HL & Hkeep & _ & Hfile & _).
      pose proof (sound_store_stored w L Hs HL) as HR.
      assert (HK : Forall keyed L).
      { apply Forall_impl with (P := course_record); [| exact HR].
        exact course_record_keyed. }
      rewrite (keep_others_keyed L code HK) in Hkeep. injection Hkeep as <-.
      unfold sound_store. rewrite Hfile.
      rewrite Forall_forall in *. intros r Hr. apply filter_In in Hr. apply HR, Hr.
Qed.

(** X14: the application keeps its own store well formed.  Start from a
    world whose file is missing or holds a list of course records (dicts
    with exactly the text fields name, code, instructor and semester, each
    stripped, the first three not empty).  After any sequence of requests to
    the five views, with any form data and any codes, writable file or not,
    the file is again missing or a list of such records: a record without a
    code can only come from outside. *)
Theorem serve_keeps_store_sound (requests : list view) (w : world) :
  sound_store w -> sound_store (serve requests w).
Proof.
  unfold serve. revert w.
  induction requests as [| v requests IH]; intros w Hs; [exact Hs |].
  cbn [fold_left]. apply IH. apply sound_store_step. exact Hs.
Qed.

(** The witness of X14: from no file at all, a record is added twice under
    the code CS301, looked up, listed, and the code is deleted. *)
Lemma serve_keeps_store_sound_witness :
  let req := mkRequest "POST" [("name", " Logic "); ("code", "CS301");
                               ("instructor", "Dr. B"); ("semester", "")]%string in
  let requests := [AddCourse req; AddCourse req; CourseDetails "CS301";
                   CourseCatalog; DeleteCourse "CS301"] in
  sound_store (serve requests (mkWorld Absent true 0 [] [])).
Proof.
  intros req requests.
  exact (serve_keeps_store_sound requests (mkWorld Absent true 0 [] []) I).
Defined.

(** X15: in a sound store no view ends in its exception path on account of
    the stored data: the list page and every details and delete request get
    a response, whatever the code asked for. *)
Theorem sound_store_gets_responses (w : world) (code : string) :
  sound_store w ->
  (exists L, fst (course_catalog w) =
               inr (Some (Page "course_catalog.html" [("courses", JArr L)]))) /\
  (exists r, fst (course_details code w) = inr (Some r)) /\
  fst (delete_course code w) = inr (Some (Redirect "/catalog")).
Proof.
  intros Hs.
  assert (HL : exists L, loads w L /\ Forall keyed L).
  { unfold loads. rewrite load_courses_run. cbn [fst].
    unfold sound_store in Hs. unfold stored.
    destruct (file w) as [| e | doc]; [exists []; auto | destruct Hs |].
    destruct doc; try contradiction. exists items. split; [reflexivity |].
    apply Forall_impl with (P := course_record); [exact course_record_keyed | exact Hs]. }
  destruct HL as (L & HL & HK). split; [| split].
  - exists L. pose proof HL as HS. apply loads_stored in HS.
    unfold course_catalog, guarded, course_catalog_body, try_except, bind.
    rewrite load_courses_run, HS. reflexivity.
  - pose proof (next_match_keyed L code HK) as HN.
    destruct (find (code_is code) L) as [r |] eqn:Hf.
    + destruct (find_some _ _ Hf) as [_ Hr].
      destruct (course_details_body_found w L code r HL HN Hr) as (w1 & Hrun & _).
      apply guarded_returns with (failure := "Error displaying course details") in Hrun.
      fold (course_details code) in Hrun. rewrite Hrun. cbn [fst]. eauto.
    + pose proof (course_details_body_missing w L code HL HN) as Hrun.
      apply guarded_returns with (failure := "Error displaying course details") in Hrun.
      fold (course_details code) in Hrun. rewrite Hrun. cbn [fst]. eauto.
  - rewrite (delete_course_run_any w L code HL HK). reflexivity.
Qed.

(** The witness of X15: the one-course catalog. *)
Lemma sound_store_gets_responses_witness :
  sound_store sample_world /\
  fst (delete_course "CS999" sample_world) = inr (Some (Redirect "/catalog")).
Proof.
  assert (Hs : sound_store sample_world).
  { repeat constructor. exists "Algorithms"%string, "CS301"%string,
      "Dr. A"%string, "Fall"%string.
    repeat split; discriminate. }
  refine (conj Hs _).
  exact (proj2 (proj2 (sound_store_gets_responses sample_world "CS999" Hs))).
Defined.

(* ------------------------------------------------------------------ *)
(** * The logging filter: what it removes and what it keeps *)

Module AnsiFacts.

Import RemoveColorCodesFilter.
Local Open Scope string_scope.

Lemma between_apart (lo hi lo' hi' : nat) (c : ascii) :
  (hi < lo' \/ hi' < lo)%nat ->
  between lo hi c = true -> between lo' hi' c = false.
Proof.
  unfold between. intros Hapart H.
  apply andb_true_iff in H. destruct H as [H1 H2].
  apply Nat.leb_le in H1, H2. apply andb_false_iff.
  destruct (Nat.leb_spec lo' (nat_of_ascii c)); [right | left; reflexivity].
  apply Nat.leb_gt. lia.
Qed.

Lemma span_take_drop (p : ascii -> bool) (s : string) :
  s = take (span p s) s ++ drop (span p s) s /\
  all_in p (take (span p s) s) = true /\
  String.length (take (span p s) s) = span p s.
Proof.
  induction s as [| c rest IH]; [repeat split |].
  cbn [span]. destruct (p c) eqn:Hc; [| repeat split].
  destruct IH as (H1 & H2 & H3). cbn [take drop all_in String.length append].
  rewrite Hc, H2, H3, <- H1. repeat split.
Qed.

Lemma span_all (p : ascii -> bool) (s t : string) :
  all_in p s = true ->
  match t with EmptyString => True | String c _ => p c = false end ->
  span p (s ++ t) = String.length s /\ drop (String.length s) (s ++ t) = t.
Proof.
  intros Hs Ht. induction s as [| c rest IH].
  - destruct t as [| c t]; [repeat split |]. cbn in *. rewrite Ht. repeat split.
  - cbn [all_in] in Hs. apply andb_true_iff in Hs. destruct Hs as [Hc Hrest].
    destruct (IH Hrest) as [H1 H2].
    cbn [append span String.length drop]. rewrite Hc, H1, H2. repeat split.
Qed.

Lemma drop_length (s t : string) : drop (String.length s) (s ++ t) = t.
Proof. induction s as [| c rest IH]; [reflexivity | exact IH]. Qed.

Lemma length_append (s t : string) :
  String.length (s ++ t) = (String.length s + String.length t)%nat.
Proof. induction s as [| c rest IH]; [reflexivity |]. cbn. rewrite IH. reflexivity. Qed.

Lemma append_assoc (s t u : string) : (s ++ t) ++ u = s ++ t ++ u.
Proof. induction s as [| c rest IH]; [reflexivity |]. cbn. rewrite IH. reflexivity. Qed.

Lemma escape_sequence_match (seq rest : string) :
  escape_sequence seq -> match_length (seq ++ rest) = Some (String.length seq).
Proof.
  intros [c Hc | params inter f Hp Hi Hf].
  - cbn. rewrite Hc. reflexivity.
  - cbn [append match_length].
    change (is_esc ESC) with true. change (fe_byte "[") with false.
    change (is_bracket "[") with true. cbv iota.
    rewrite !append_assoc. cbn [append].
    assert (Hhead : match inter ++ String f rest with
                    | EmptyString => True
                    | String a _ => parameter_byte a = false
                    end).
    { destruct inter as [| a inter]; cbn.
      - apply between_apart with (lo := 64%nat) (hi := 126%nat); [lia | exact Hf].
      - cbn in Hi. apply andb_true_iff in Hi.
        apply between_apart with (lo := 32%nat) (hi := 47%nat); [lia | apply Hi]. }
    destruct (span_all parameter_byte params _ Hp Hhead) as [-> ->].
    assert (Hfinal : intermediate_byte f = false)
      by (apply between_apart with (lo := 64%nat) (hi := 126%nat); [lia | exact Hf]).
    destruct (span_all intermediate_byte inter (String f rest) Hi Hfinal) as [-> ->].
    rewrite Hf. f_equal. cbn [String.length]. rewrite !length_append.
    cbn [String.length]. lia.
Qed.

Lemma match_escape_sequence (s : string) (n : nat) :
  match_length s = Some n ->
  exists seq rest, escape_sequence seq /\ s = seq ++ rest /\ n = String.length seq.
Proof.
  destruct s as [| e [| c rest]]; try discriminate. cbn [match_length].
  destruct (is_esc e) eqn:He; [| discriminate].
  apply Ascii.eqb_eq in He. subst e.
  destruct (fe_byte c) eqn:Hc.
  - intros H. injection H as <-.
    exists (String ESC (String c "")), rest. repeat split. constructor. exact Hc.
  - destruct (is_bracket c) eqn:Hb; [| discriminate].
    apply Ascii.eqb_eq in Hb. subst c.
    destruct (span_take_drop parameter_byte rest) as (Hrest & Hp & Hplen).
    set (ps := span parameter_byte rest) in *.
    destruct (span_take_drop intermediate_byte (drop ps rest)) as (Hrest' & Hi & Hilen).
    set (ims := span intermediate_byte (drop ps rest)) in *.
    destruct (drop ims (drop ps rest)) as [| f tail] eqn:Htail; [discriminate |].
    destruct (final_byte f) eqn:Hf; [| discriminate].
    intros H. injection H as <-.
    exists (String ESC (String "[" (take ps rest ++ take ims (drop ps rest)
                                      ++ String f ""))), tail.
    split; [constructor; assumption |]. split.
    + cbn [append]. do 2 f_equal. rewrite !append_assoc. cbn [append].
      rewrite <- Hrest'. exact Hrest.
    + cbn [String.length]. rewrite !length_append, Hplen, Hilen.
      cbn [String.length]. lia.
Qed.

(** X16: the matcher finds exactly what the pattern describes.  A match of
    [n] characters starts the text if and only if the text begins with an
    escape sequence of the pattern (ESC and one of [[@-Z\\-_]], or ESC, a
    bracket, parameter characters, intermediate characters and a final
    character) that is [n] characters long; so the sequence that starts a
    text, and its length, are unique. *)
Theorem match_length_exact (s : string) (n : nat) :
  match_length s = Some n <->
  exists seq rest, escape_sequence seq /\ s = seq ++ rest /\ n = String.length seq.
Proof.
  split; [apply match_escape_sequence |].
  intros (seq & rest & Hseq & -> & ->). apply escape_sequence_match. exact Hseq.
Qed.

Lemma sub_from_drop (k : nat) (s : string) :
  sub_from k s = sub_from 0 (drop k s).
Proof.
  revert k. induction s as [| c rest IH]; intros [| k]; try reflexivity.
  cbn [sub_from drop]. apply IH.
Qed.

Lemma sub_plain_head (c : ascii) (rest : string) :
  is_esc c = false -> sub (String c rest) = String c (sub rest).
Proof.
  intros Hc. unfold sub. cbn [sub_from].
  assert (match_length (String c rest) = None) as ->.
  { cbn [match_length]. destruct rest; [reflexivity |]. rewrite Hc. reflexivity. }
  reflexivity.
Qed.

Lemma sub_plain_prefix (text rest : string) :
  no_esc text = true -> sub (text ++ rest) = text ++ sub rest.
Proof.
  induction text as [| c text IH]; intros H; [reflexivity |].
  cbn [no_esc all_in] in H. apply andb_true_iff in H. destruct H as [Hc Htext].
  apply negb_true_iff in Hc. cbn [append].
  rewrite (sub_plain_head c _ Hc), (IH Htext). reflexivity.
Qed.

Lemma sub_escape_sequence (seq rest : string) :
  escape_sequence seq -> sub (seq ++ rest) = sub rest.
Proof.
  intros Hseq. pose proof (escape_sequence_match seq rest Hseq) as Hm.
  unfold sub.
  destruct seq as [| e seq]; [inversion Hseq |].
  cbn [append] in *. cbn [sub_from]. rewrite Hm. cbn [String.length].
  rewrite sub_from_drop, drop_length. reflexivity.
Qed.

Lemma append_empty (s : string) : s ++ "" = s.
Proof. induction s as [| c rest IH]; [reflexivity |]. cbn. rewrite IH. reflexivity. Qed.

(** X17: the filter lets every record through, and a str message without
    the ESC character passes unchanged. *)
Theorem filter_keeps_plain_text (str : list (string * logval) -> string)
    (record_msg : message) (s : string) :
  fst (filter str record_msg) = true /\
  (record_msg = Text s -> no_esc s = true ->
   filter str record_msg = (true, Text s)).
Proof.
  split; [reflexivity |].
  intros -> Hs. unfold filter. do 2 f_equal.
  rewrite <- (append_empty s) at 1. rewrite (sub_plain_prefix s "" Hs).
  apply append_empty.
Qed.

(** The witness of X17: a message without colour codes. *)
Lemma filter_keeps_plain_text_witness :
  filter (fun _ => "") (Text "Homepage accessed.") = (true, Text "Homepage accessed.").
Proof.
  exact (proj2 (filter_keeps_plain_text (fun _ => "") _ "Homepage accessed.")
           eq_refl eq_refl).
Defined.

(** X18: the substitution removes an escape sequence and goes on behind it.
    Plain text (no ESC) in front of an escape sequence is kept, the sequence
    is left out, and what follows is treated the same way; so text coloured
    as sequence, text, sequence comes out as the bare text. *)
Theorem sub_removes_escape_sequence (text seq rest : string) :
  no_esc text = true -> escape_sequence seq ->
  sub (text ++ seq ++ rest) = text ++ sub rest /\
  (forall seq', escape_sequence seq' -> no_esc rest = true ->
                sub (seq ++ rest ++ seq') = rest).
Proof.
  intros Htext Hseq. split.
  - rewrite (sub_plain_prefix text _ Htext), (sub_escape_sequence seq rest Hseq).
    reflexivity.
  - intros seq' Hseq' Hrest.
    rewrite (sub_escape_sequence seq _ Hseq), (sub_plain_prefix rest _ Hrest).
    rewrite <- (append_empty seq') at 1.
    rewrite (sub_escape_sequence seq' "" Hseq'). apply append_empty.
Qed.

(** The witness of X18: red text, ESC[31m ... ESC[0m. *)
Lemma sub_removes_escape_sequence_witness :
  sub (String ESC "[31m" ++ "error" ++ String ESC "[0m") = "error".
Proof.
  assert (Hred : escape_sequence (String ESC (String "[" ("31" ++ "" ++ "m"))))
    by (constructor; reflexivity).
  assert (Hreset : escape_sequence (String ESC (String "[" ("0" ++ "" ++ "m"))))
    by (constructor; reflexivity).
  exact (proj2 (sub_removes_escape_sequence "" _ "error" eq_refl Hred)
           _ Hreset eq_refl).
Defined.

End AnsiFacts.

(* ------------------------------------------------------------------ *)
(** * Exceptions in a view *)

(** With an engine that renders every template the views are those of the
    first part. *)
Lemma templated_renders_all (v : view) (w : world) :
  Templated.dispatch Templated.renders_all v w = dispatch v w.
Proof. destruct v; reflexivity. Qed.







